(** * Developer-experience ROI calculator: validation and calculation engine

    A shallow embedding of [InputValidator] and [BusinessModelCalculator]
    (src/services) together with the facts the specification states about
    them.

    JavaScript numbers are IEEE 754 binary64 values.  They are modelled with
    the [spec_float] type of the standard library, instantiated at precision
    53 and maximal exponent 1024, so that rounding, NaN, the infinities and
    the two zeros behave as they do at run time. *)

From Stdlib Require Import ZArith Bool List String Ascii Lia.
From Stdlib Require Import Floats.SpecFloat.
Import ListNotations.

Local Open Scope string_scope.
Local Open Scope Z_scope.

(** ** JavaScript numbers *)

Module Num.

Definition number : Type := spec_float.

Definition prec : Z := 53.
Definition emax : Z := 1024.

(** Well-formed doubles: canonical mantissa, exponent in range. *)
Definition wf (x : number) : bool := valid_binary prec emax x.

Definition mul (x y : number) : number := SFmul prec emax x y.
Definition div (x y : number) : number := SFdiv prec emax x y.
Definition sub (x y : number) : number := SFsub prec emax x y.

(** [x < y], [x <= y], [x > y]; every comparison with NaN is false. *)
Definition ltb (x y : number) : bool := SFltb x y.
Definition leb (x y : number) : bool := SFleb x y.
Definition gtb (x y : number) : bool := SFltb y x.

(** Integer literals ([1], [50000], ...). *)
Definition ofZ (z : Z) : number := binary_normalize prec emax z 0 false.

(** Decimal literals [n / 10^k] such as [0.1] or [0.005]: reading a decimal
    literal rounds the exact decimal to the nearest double, which is what
    the correctly rounded division of the two exactly representable integers
    returns. *)
Definition ofDec (n : Z) (k : Z) : number := div (ofZ n) (ofZ (10 ^ k)).

Definition NaN : number := S754_nan.
Definition Infinity : number := S754_infinity false.
Definition NegInfinity : number := S754_infinity true.
Definition zero : number := S754_zero false.

(** Global [isNaN] on a number. *)
Definition isNaN (x : number) : bool :=
  match x with S754_nan => true | _ => false end.

(** [Number.isInteger]: finite and without fractional part. *)
Definition isInteger (x : number) : bool :=
  match x with
  | S754_zero _ => true
  | S754_finite _ m e =>
      if 0 <=? e then true else (Z.pos m mod 2 ^ (- e) =? 0)
  | _ => false
  end.

(** ToBoolean on a number: NaN, +0 and -0 are falsy. *)
Definition truthy (x : number) : bool :=
  match x with
  | S754_nan | S754_zero _ => false
  | _ => true
  end.

End Num.

Definition number : Type := Num.number.

Declare Scope num_scope.
Delimit Scope num_scope with num.
Bind Scope num_scope with number.
Infix "*" := Num.mul : num_scope.
Infix "/" := Num.div : num_scope.
Infix "-" := Num.sub : num_scope.
Infix "<?" := Num.ltb : num_scope.
Infix "<=?" := Num.leb : num_scope.
Infix ">?" := Num.gtb : num_scope.

(** ** Values, strings and objects *)

(** A value handed to a per-field validator: the parameters are typed
    [number] (or [number | undefined]) but every validator starts by testing
    for [null] and [undefined], which [validateField] can pass in. *)
Inductive jsval : Type :=
  | JUndefined
  | JNull
  | JNum (n : number).

Definition ofOption (o : option number) : jsval :=
  match o with
  | Some n => JNum n
  | None => JUndefined
  end.

(** ToBoolean on [string | null]: [null] and the empty string are falsy. *)
Definition truthyStr (o : option string) : bool :=
  match o with
  | Some (String _ _) => true
  | _ => false
  end.

(** [Array.prototype.join]. *)
Fixpoint join (sep : string) (l : list string) : string :=
  match l with
  | [] => ""
  | [x] => x
  | x :: rest => (x ++ sep ++ join sep rest)%string
  end.

(** [ValidationErrors] is a plain object used as a map from field names to
    messages.  Its own string keys are enumerated in insertion order, and
    writing to an existing key keeps that key's position, so the object is an
    association list without duplicate keys. *)
Definition ValidationErrors : Type := list (string * string).

Fixpoint setKey (k v : string) (o : ValidationErrors) : ValidationErrors :=
  match o with
  | [] => [(k, v)]
  | (k', v') :: rest =>
      if String.eqb k' k then (k', v) :: rest else (k', v') :: setKey k v rest
  end.

Fixpoint getKey (k : string) (o : ValidationErrors) : option string :=
  match o with
  | [] => None
  | (k', v') :: rest => if String.eqb k' k then Some v' else getKey k rest
  end.

(** [if (err) errors[k] = err]. *)
Definition setIfTruthy (k : string) (err : option string) (o : ValidationErrors)
  : ValidationErrors :=
  match err with
  | Some v => if truthyStr err then setKey k v o else o
  | None => o
  end.

Definition objectKeys (o : ValidationErrors) : list string := map fst o.
Definition objectValues (o : ValidationErrors) : list string := map snd o.

(** [Object.assign(target, source)]: every own property of [source] is
    written to [target], in [source]'s order. *)
Definition objectAssign (target source : ValidationErrors) : ValidationErrors :=
  fold_left (fun acc kv => setKey (fst kv) (snd kv) acc) source target.

(** ** Types (src/types) *)

Inductive BusinessType : Type := traditional | tech.

Inductive OrganizationSize : Type := small | medium | large | enterprise.

Record Scenario : Type := {
  id : string;
  name : string;
  businessType : BusinessType;
  developerCount : number;
  annualCostPerDeveloper : number;
  ctsSwImprovementPercent : number;
  solutionCost : number;
  revenuePercentage : option number;
  organizationSize : option OrganizationSize;
  notes : option string;
  createdAt : Z;
  updatedAt : Z
}.

Record CalculationStep : Type := {
  step : Z;
  description : string;
  formula : string;
  calculation : string;
  result : number;
  explanation : string
}.

Record SupportingMetrics : Type := {
  deploymentsPerBuilder : number;
  interventionsReduction : number;
  incidentReduction : number
}.

Record CalculationResults : Type := {
  scenarioId : string;
  totalDeveloperCost : number;
  costAvoidance : number;
  roiMultiple : number;
  roiPercentage : number;
  grossMarginImprovement : option number;
  profitImpact : option number;
  profitBoostPercentage : option number;
  supportingMetrics : SupportingMetrics;
  calculationSteps : list CalculationStep
}.

Record Range : Type := { min : number; max : number }.

(** [VALIDATION_RANGES]. *)
Module VALIDATION_RANGES.
Definition developerCount : Range :=
  {| min := Num.ofZ 1; max := Num.ofZ 50000 |}.
Definition annualCostPerDeveloper : Range :=
  {| min := Num.ofZ 50000; max := Num.ofZ 300000 |}.
Definition ctsSwImprovementPercent : Range :=
  {| min := Num.ofDec 1 1; max := Num.ofZ 50 |}.
Definition solutionCost : Range :=
  {| min := Num.ofZ 1000; max := Num.ofZ 100000000 |}.
Definition revenuePercentage : Range :=
  {| min := Num.ofZ 0; max := Num.ofZ 100 |}.
End VALIDATION_RANGES.

(** The outcome of an entry point that either returns or throws
    [new Error(msg)]. *)
Inductive outcome (A : Type) : Type :=
  | Return (a : A)
  | Throw (msg : string).
Arguments Return {A} a.
Arguments Throw {A} msg.

Definition bind {A B : Type} (x : outcome A) (k : A -> outcome B) : outcome B :=
  match x with
  | Return a => k a
  | Throw msg => Throw msg
  end.

Notation "x <- c ;; k" := (bind c (fun x => k))
  (at level 61, c at next level, right associativity).

(** ** Number formatting

    [Number.prototype.toLocaleString] depends on the host's locale and
    [Number.prototype.toString] (template literals) on the shortest
    round-trip printer of the engine; both belong to the run time, not to
    this repository, and are taken as parameters. *)
Class NumberFormat : Type := {
  toLocaleString : number -> string;
  toString : number -> string
}.

Section Engine.

Context {fmt : NumberFormat}.

Local Open Scope num_scope.

(** ** InputValidator (src/services/InputValidator.ts) *)

Definition validateDeveloperCount (count : jsval) : option string :=
  match count with
  | JNull | JUndefined =>
      Some "Developer count is required and must be a number"
  | JNum count =>
      if Num.isNaN count then
        Some "Developer count is required and must be a number"
      else if negb (Num.isInteger count) then
        Some "Developer count must be a whole number (no decimals)"
      else if count <? min VALIDATION_RANGES.developerCount then
        Some ("Developer count must be at least "
              ++ toString (min VALIDATION_RANGES.developerCount))%string
      else if count >? max VALIDATION_RANGES.developerCount then
        Some ("Developer count cannot exceed "
              ++ toLocaleString (max VALIDATION_RANGES.developerCount)
              ++ " (consider breaking into smaller teams)")%string
      else None
  end.

Definition validateAnnualCostPerDeveloper (cost : jsval) : option string :=
  match cost with
  | JNull | JUndefined =>
      Some "Annual cost per developer is required and must be a number"
  | JNum cost =>
      if Num.isNaN cost then
        Some "Annual cost per developer is required and must be a number"
      else if cost <=? Num.ofZ 0 then
        Some "Annual cost per developer must be greater than zero"
      else if cost <? min VALIDATION_RANGES.annualCostPerDeveloper then
        Some ("Annual cost per developer must be at least $"
              ++ toLocaleString (min VALIDATION_RANGES.annualCostPerDeveloper)
              ++ " (includes salary, benefits, and tooling)")%string
      else if cost >? max VALIDATION_RANGES.annualCostPerDeveloper then
        Some ("Annual cost per developer cannot exceed $"
              ++ toLocaleString (max VALIDATION_RANGES.annualCostPerDeveloper)
              ++ " (AWS example: $130K)")%string
      else None
  end.

Definition validateCtsSwImprovement (improvement : jsval) : option string :=
  match improvement with
  | JNull | JUndefined =>
      Some "CTS-SW improvement percentage is required and must be a number"
  | JNum improvement =>
      if Num.isNaN improvement then
        Some "CTS-SW improvement percentage is required and must be a number"
      else if improvement <=? Num.ofZ 0 then
        Some "CTS-SW improvement percentage must be greater than zero"
      else if improvement <? min VALIDATION_RANGES.ctsSwImprovementPercent then
        Some ("CTS-SW improvement must be at least "
              ++ toString (min VALIDATION_RANGES.ctsSwImprovementPercent)
              ++ "%")%string
      else if improvement >? max VALIDATION_RANGES.ctsSwImprovementPercent then
        Some ("CTS-SW improvement cannot exceed "
              ++ toString (max VALIDATION_RANGES.ctsSwImprovementPercent)
              ++ "% (be realistic about achievable gains)")%string
      else None
  end.

Definition validateSolutionCost (cost : jsval) : option string :=
  match cost with
  | JNull | JUndefined =>
      Some "Solution cost is required and must be a number"
  | JNum cost =>
      if Num.isNaN cost then
        Some "Solution cost is required and must be a number"
      else if cost <=? Num.ofZ 0 then
        Some "Solution cost must be greater than zero"
      else if cost <? min VALIDATION_RANGES.solutionCost then
        Some ("Solution cost must be at least $"
              ++ toLocaleString (min VALIDATION_RANGES.solutionCost))%string
      else if cost >? max VALIDATION_RANGES.solutionCost then
        Some ("Solution cost cannot exceed $"
              ++ toLocaleString (max VALIDATION_RANGES.solutionCost))%string
      else None
  end.

Definition validateRevenuePercentage (percentage : jsval) : option string :=
  match percentage with
  | JNull | JUndefined =>
      Some "Revenue percentage is required for tech companies"
  | JNum percentage =>
      if Num.isNaN percentage then
        Some "Revenue percentage is required for tech companies"
      else if percentage <? min VALIDATION_RANGES.revenuePercentage then
        Some ("Revenue percentage must be at least "
              ++ toString (min VALIDATION_RANGES.revenuePercentage)
              ++ "%")%string
      else if percentage >? max VALIDATION_RANGES.revenuePercentage then
        Some ("Revenue percentage cannot exceed "
              ++ toString (max VALIDATION_RANGES.revenuePercentage)
              ++ "%")%string
      else None
  end.

(** The three heuristic messages of [validateCrossFieldConstraints]. *)
Definition highCostMessage (scenario : Scenario) (totalCost : number) : string :=
  ("Solution cost ($" ++ toLocaleString (solutionCost scenario)
   ++ ") seems high relative to total developer cost ($"
   ++ toLocaleString totalCost
   ++ "). Consider if this investment is realistic.")%string.

Definition unrealisticMessage (scenario : Scenario) : string :=
  (toString (ctsSwImprovementPercent scenario)
   ++ "% improvement may be unrealistic for a relatively small investment ($"
   ++ toLocaleString (solutionCost scenario) ++ ")")%string.

Definition smallTeamMessage (scenario : Scenario) : string :=
  ("High solution cost for a small team. Consider if this investment makes sense for "
   ++ toString (developerCount scenario) ++ " developers.")%string.

Definition validateCrossFieldConstraints (scenario : Scenario) : ValidationErrors :=
  let errors : ValidationErrors := [] in
  let totalDeveloperCost :=
    developerCount scenario * annualCostPerDeveloper scenario in
  let costRatio := solutionCost scenario / totalDeveloperCost in
  let errors :=
    if costRatio >? Num.ofDec 5 1
    then setKey "solutionCost" (highCostMessage scenario totalDeveloperCost) errors
    else errors in
  let errors :=
    if (costRatio <? Num.ofDec 5 3)
       && (ctsSwImprovementPercent scenario >? Num.ofZ 15)
    then setKey "ctsSwImprovementPercent" (unrealisticMessage scenario) errors
    else errors in
  let errors :=
    if (developerCount scenario <? Num.ofZ 10)
       && (solutionCost scenario >? Num.ofZ 500000)
    then setKey "general" (smallTeamMessage scenario) errors
    else errors in
  errors.

(** The per-field part of [validateScenario] (its lines up to the
    cross-field call). *)
Definition fieldErrors (scenario : Scenario) : ValidationErrors :=
  let errors : ValidationErrors := [] in
  let developerCountError :=
    validateDeveloperCount (JNum (developerCount scenario)) in
  let errors := setIfTruthy "developerCount" developerCountError errors in
  let costError :=
    validateAnnualCostPerDeveloper (JNum (annualCostPerDeveloper scenario)) in
  let errors := setIfTruthy "annualCostPerDeveloper" costError errors in
  let improvementError :=
    validateCtsSwImprovement (JNum (ctsSwImprovementPercent scenario)) in
  let errors := setIfTruthy "ctsSwImprovementPercent" improvementError errors in
  let solutionCostError :=
    validateSolutionCost (JNum (solutionCost scenario)) in
  let errors := setIfTruthy "solutionCost" solutionCostError errors in
  match businessType scenario with
  | tech =>
      let revenueError :=
        validateRevenuePercentage (ofOption (revenuePercentage scenario)) in
      setIfTruthy "revenuePercentage" revenueError errors
  | traditional => errors
  end.

Definition validateScenario (scenario : Scenario) : ValidationErrors :=
  let errors := fieldErrors scenario in
  let crossFieldErrors := validateCrossFieldConstraints scenario in
  objectAssign errors crossFieldErrors.

(** The field names [validateField] dispatches on; any other key of
    [Scenario] falls to the [default] case. *)
Inductive FieldName : Type :=
  | F_developerCount
  | F_annualCostPerDeveloper
  | F_ctsSwImprovementPercent
  | F_solutionCost
  | F_revenuePercentage
  | F_other (key : string).

Definition validateField (fieldName : FieldName) (value : jsval)
    (businessType : option BusinessType) : option string :=
  match fieldName with
  | F_developerCount => validateDeveloperCount value
  | F_annualCostPerDeveloper => validateAnnualCostPerDeveloper value
  | F_ctsSwImprovementPercent => validateCtsSwImprovement value
  | F_solutionCost => validateSolutionCost value
  | F_revenuePercentage =>
      match businessType with
      | Some tech => validateRevenuePercentage value
      | _ => None
      end
  | F_other _ => None
  end.

(** ** BusinessModelCalculator (src/services/BusinessModelCalculator.ts) *)

Definition validateInputs (scenario : Scenario) : ValidationErrors :=
  validateScenario scenario.

(** [`Validation failed: ${Object.values(validationErrors).join(', ')}`]. *)
Definition validationFailed (validationErrors : ValidationErrors) : string :=
  ("Validation failed: " ++ join ", " (objectValues validationErrors))%string.

Definition calculateTraditionalBusiness (scenario : Scenario)
  : outcome CalculationResults :=
  let validationErrors := validateInputs scenario in
  if Nat.ltb 0 (List.length (objectKeys validationErrors)) then
    Throw (validationFailed validationErrors)
  else
    let totalDeveloperCost :=
      developerCount scenario * annualCostPerDeveloper scenario in
    let costAvoidance :=
      totalDeveloperCost * (ctsSwImprovementPercent scenario / Num.ofZ 100) in
    let roiMultiple := costAvoidance / solutionCost scenario in
    let roiPercentage := (roiMultiple - Num.ofZ 1) * Num.ofZ 100 in
    let calculationSteps := [
      {| step := 1;
         description := "Calculate Total Developer Cost";
         formula := "Developer Count × Annual Cost per Developer";
         calculation :=
           (toLocaleString (developerCount scenario) ++ " × $"
            ++ toLocaleString (annualCostPerDeveloper scenario))%string;
         result := totalDeveloperCost;
         explanation :=
           "Total annual cost of all developers including salaries, benefits, and tooling" |};
      {| step := 2;
         description := "Calculate Cost Avoidance";
         formula := "Total Developer Cost × CTS-SW Improvement %";
         calculation :=
           ("$" ++ toLocaleString totalDeveloperCost ++ " × "
            ++ toString (ctsSwImprovementPercent scenario) ++ "%")%string;
         result := costAvoidance;
         explanation :=
           "Annual cost savings from improved developer productivity using CTS-SW framework" |};
      {| step := 3;
         description := "Calculate ROI Multiple";
         formula := "Cost Avoidance ÷ Solution Cost";
         calculation :=
           ("$" ++ toLocaleString costAvoidance ++ " ÷ $"
            ++ toLocaleString (solutionCost scenario))%string;
         result := roiMultiple;
         explanation :=
           "Return on investment multiple - how many times the investment is returned annually" |}
    ] in
    Return {|
      scenarioId := id scenario;
      totalDeveloperCost := totalDeveloperCost;
      costAvoidance := costAvoidance;
      roiMultiple := roiMultiple;
      roiPercentage := roiPercentage;
      grossMarginImprovement := None;
      profitImpact := None;
      profitBoostPercentage := None;
      supportingMetrics := {|
        deploymentsPerBuilder := Num.ofZ 0;
        interventionsReduction := Num.ofZ 0;
        incidentReduction := Num.ofZ 0 |};
      calculationSteps := calculationSteps
    |}.

(** ToBoolean on [number | undefined], as in [!scenario.revenuePercentage]. *)
Definition truthyOpt (o : option number) : bool :=
  match o with
  | Some n => Num.truthy n
  | None => false
  end.

(** ToNumber on [number | undefined], as in [scenario.revenuePercentage / 100]. *)
Definition toNumber (o : option number) : number :=
  match o with
  | Some n => n
  | None => Num.NaN
  end.

(** The object spread
    [{ ...basicResults, grossMarginImprovement, profitImpact,
       profitBoostPercentage, calculationSteps: techCalculationSteps }]. *)
Definition extendWithTech (basicResults : CalculationResults)
    (grossMarginImprovement' profitImpact' profitBoostPercentage' : number)
    (techCalculationSteps : list CalculationStep) : CalculationResults :=
  {| scenarioId := scenarioId basicResults;
     totalDeveloperCost := totalDeveloperCost basicResults;
     costAvoidance := costAvoidance basicResults;
     roiMultiple := roiMultiple basicResults;
     roiPercentage := roiPercentage basicResults;
     grossMarginImprovement := Some grossMarginImprovement';
     profitImpact := Some profitImpact';
     profitBoostPercentage := Some profitBoostPercentage';
     supportingMetrics := supportingMetrics basicResults;
     calculationSteps := techCalculationSteps |}.

Definition calculateTechCompany (scenario : Scenario)
  : outcome CalculationResults :=
  let validationErrors := validateInputs scenario in
  if Nat.ltb 0 (List.length (objectKeys validationErrors)) then
    Throw (validationFailed validationErrors)
  else if negb (truthyOpt (revenuePercentage scenario)) then
    Throw "Revenue percentage is required for tech company calculations"
  else
    basicResults <- calculateTraditionalBusiness scenario ;;
    let totalDeveloperCost :=
      developerCount scenario * annualCostPerDeveloper scenario in
    let costAvoidance :=
      totalDeveloperCost * (ctsSwImprovementPercent scenario / Num.ofZ 100) in
    let grossMarginImprovement :=
      costAvoidance * (toNumber (revenuePercentage scenario) / Num.ofZ 100) in
    let profitImpact := grossMarginImprovement in
    let baselineProfitMargin := Num.ofDec 10 2 in
    let estimatedCurrentProfit := totalDeveloperCost * baselineProfitMargin in
    let profitBoostPercentage :=
      if estimatedCurrentProfit >? Num.ofZ 0
      then (profitImpact / estimatedCurrentProfit) * Num.ofZ 100
      else Num.ofZ 0 in
    let techCalculationSteps :=
      (calculationSteps basicResults ++ [
        {| step := 4;
           description := "Calculate Gross Margin Improvement (Tech Company)";
           formula := "Cost Avoidance × Revenue from Software Development %";
           calculation :=
             (toLocaleString costAvoidance ++ " × "
              ++ toString (toNumber (revenuePercentage scenario)) ++ "%")%string;
           result := grossMarginImprovement;
           explanation :=
             "For tech companies, developer productivity improvements directly impact gross margins on software revenue" |};
        {| step := 5;
           description := "Calculate Profit Impact";
           formula := "Gross Margin Improvement (flows to profit)";
           calculation := toLocaleString grossMarginImprovement;
           result := profitImpact;
           explanation :=
             "Gross margin improvements from developer productivity typically flow directly to profit" |};
        {| step := 6;
           description := "Calculate Profit Boost Percentage";
           formula := "Profit Impact ÷ Estimated Current Profit × 100";
           calculation :=
             (toLocaleString profitImpact ++ " ÷ "
              ++ toLocaleString estimatedCurrentProfit ++ " × 100")%string;
           result := profitBoostPercentage;
           explanation :=
             "Percentage increase in profit relative to baseline (assuming 10% current profit margin)" |}
      ])%list in
    Return (extendWithTech basicResults grossMarginImprovement profitImpact
              profitBoostPercentage techCalculationSteps).

(** How every caller in the repository picks the entry point
    (ScenarioComparison, ResultsPanelDemo and the dashboard):
    [if (scenario.businessType === 'tech') calculateTechCompany(scenario)
     else calculateTraditionalBusiness(scenario)]. *)
Definition calculateForBusinessType (scenario : Scenario)
  : outcome CalculationResults :=
  match businessType scenario with
  | tech => calculateTechCompany scenario
  | traditional => calculateTraditionalBusiness scenario
  end.

(** [estimatedCurrentProfit] of [calculateTechCompany]: total developer
    cost times the 10% baseline margin. *)
Definition estimatedCurrentProfit (s : Scenario) : number :=
  (developerCount s * annualCostPerDeveloper s) * Num.ofDec 10 2.

(** The four per-field checks that every scenario goes through, all
    passing. *)
Definition commonFieldsValid (s : Scenario) : Prop :=
  validateDeveloperCount (JNum (developerCount s)) = None
  /\ validateAnnualCostPerDeveloper (JNum (annualCostPerDeveloper s)) = None
  /\ validateCtsSwImprovement (JNum (ctsSwImprovementPercent s)) = None
  /\ validateSolutionCost (JNum (solutionCost s)) = None.

End Engine.

(** ** Concrete scenarios *)

(** One instance of the formatting interface, used to run the engine on
    concrete scenarios; no statement below depends on the instance chosen. *)
Definition sampleFormat : NumberFormat :=
  {| toLocaleString := fun _ => "#"; toString := fun _ => "#" |}.

Definition mkScenario (bt : BusinessType) (dc ac cts sc : Z) (rp : option Z)
  : Scenario :=
  {| id := "scenario"; name := "Scenario"; businessType := bt;
     developerCount := Num.ofZ dc;
     annualCostPerDeveloper := Num.ofZ ac;
     ctsSwImprovementPercent := Num.ofZ cts;
     solutionCost := Num.ofZ sc;
     revenuePercentage := option_map Num.ofZ rp;
     organizationSize := None; notes := None;
     createdAt := 0; updatedAt := 0 |}.

(** [AWS_BENCHMARKS.BANK_EXAMPLE] and [AWS_BENCHMARKS.TECH_EXAMPLE]. *)
Definition bankExample : Scenario :=
  mkScenario traditional 1000 130000 15 2000000 None.
Definition techExample : Scenario :=
  mkScenario tech 400 150000 15 1000000 (Some 60).

(** The tech example without a revenue percentage (the scenario of the
    calculator's own test), with a revenue percentage of zero, and typed
    as a traditional business. *)
Definition techWithoutRevenue : Scenario :=
  mkScenario tech 400 150000 15 1000000 None.
Definition techZeroRevenue : Scenario :=
  mkScenario tech 400 150000 15 1000000 (Some 0).
Definition traditionalWithRevenue : Scenario :=
  mkScenario traditional 400 150000 15 1000000 (Some 60).
Definition traditionalWithoutRevenue : Scenario :=
  mkScenario traditional 400 150000 15 1000000 None.

(** Ten developers at 100,000 each with a solution cost of 600,000 (cost
    ratio 0.6), as a traditional scenario and as a tech scenario with a
    revenue percentage of zero; and the same team with a solution cost
    above the field's maximum. *)
Definition highRatioExample : Scenario :=
  mkScenario traditional 10 100000 15 600000 None.
Definition highRatioZeroRevenue : Scenario :=
  mkScenario tech 10 100000 15 600000 (Some 0).
Definition overMaxExample : Scenario :=
  mkScenario traditional 10 100000 15 200000000 None.

(** The calculator's test scenario with no developers. *)
Definition invalidExample : Scenario :=
  mkScenario traditional 0 130000 15 2000000 None.

(** A result carries the tech-specific fields when all three are set, and
    lacks them when none is. *)
Definition hasTechFields (r : CalculationResults) : Prop :=
  grossMarginImprovement r <> None /\ profitImpact r <> None
  /\ profitBoostPercentage r <> None.

Definition lacksTechFields (r : CalculationResults) : Prop :=
  grossMarginImprovement r = None /\ profitImpact r = None
  /\ profitBoostPercentage r = None.

(** Inclusive range check of a per-field validator: both bounds pass and
    every number strictly outside is rejected. *)
Definition inclusiveRange (validate : jsval -> option string) (r : Range)
  : Prop :=
  validate (JNum (min r)) = None
  /\ validate (JNum (max r)) = None
  /\ (forall x : number, Num.ltb x (min r) = true -> validate (JNum x) <> None)
  /\ (forall x : number, Num.gtb x (max r) = true -> validate (JNum x) <> None).

(** ** Callers and consumers of the engine *)

(** The property name behind a field of [validateField]'s [keyof Scenario]. *)
Definition fieldKey (fieldName : FieldName) : string :=
  match fieldName with
  | F_developerCount => "developerCount"
  | F_annualCostPerDeveloper => "annualCostPerDeveloper"
  | F_ctsSwImprovementPercent => "ctsSwImprovementPercent"
  | F_solutionCost => "solutionCost"
  | F_revenuePercentage => "revenuePercentage"
  | F_other key => key
  end.

(** [delete o[k]]. *)
Definition deleteKey (k : string) (o : ValidationErrors) : ValidationErrors :=
  filter (fun kv => negb (String.eqb (fst kv) k)) o.

(** The object spread [{ ...a, ...b }]: a fresh object with the properties
    of [a], then those of [b]. *)
Definition spread (a b : ValidationErrors) : ValidationErrors :=
  objectAssign (objectAssign [] a) b.

(** [{ ...scenario, revenuePercentage }]. *)
Definition withRevenue (scenario : Scenario) (revenue : option number)
  : Scenario :=
  {| id := id scenario; name := name scenario;
     businessType := businessType scenario;
     developerCount := developerCount scenario;
     annualCostPerDeveloper := annualCostPerDeveloper scenario;
     ctsSwImprovementPercent := ctsSwImprovementPercent scenario;
     solutionCost := solutionCost scenario;
     revenuePercentage := revenue;
     organizationSize := organizationSize scenario;
     notes := notes scenario;
     createdAt := createdAt scenario; updatedAt := updatedAt scenario |}.

(** [null] test on a validator's result. *)
Definition isNull (o : option string) : bool :=
  match o with
  | None => true
  | Some _ => false
  end.

(** Positive numbers of magnitude at least [2 ^ (k + 52)]: [+Infinity] or
    a positive normal double whose exponent is at least [k]. *)
Definition positiveFrom (k : Z) (x : number) : Prop :=
  x = S754_infinity false
  \/ exists (m : positive) (e : Z),
       x = S754_finite false m e /\ Z.pos (digits2_pos m) = 53 /\ k <= e.

Section Callers.

Context {fmt : NumberFormat}.

Local Open Scope num_scope.

(** *** useInputValidation (src/hooks/useInputValidation.ts)

    The hook keeps one [ValidationErrors] state; each callback is modelled by
    the update it applies to that state. *)

(** [validateField]: the updater
    [prev => { const newErrors = { ...prev }; if (error) newErrors[field] = error;
               else delete newErrors[field]; return newErrors; }]
    with [error = inputValidator.validateField(field, value)], called with
    two arguments (no business type). *)
Definition hookValidateField (field : FieldName) (value : jsval)
    (prev : ValidationErrors) : ValidationErrors :=
  let error := validateField field value None in
  let newErrors := spread [] prev in
  if truthyStr error then
    match error with
    | Some message => setKey (fieldKey field) message newErrors
    | None => newErrors
    end
  else deleteKey (fieldKey field) newErrors.

(** [validateScenario]: the new state and the returned boolean. *)
Definition hookValidateScenario (scenario : Scenario)
  : ValidationErrors * bool :=
  let errors := validateScenario scenario in
  (errors, Nat.eqb (List.length (objectKeys errors)) 0).

Definition hookClearErrors : ValidationErrors := [].

Definition hookHasErrors (validationErrors : ValidationErrors) : bool :=
  Nat.ltb 0 (List.length (objectKeys validationErrors)).

(** *** ValidationErrorHandler (src/utils/ValidationErrorHandler.ts)

    [hasErrors] and [getErrorMessages] start with [if (!errors)]: their
    argument may be [null] or [undefined], modelled by [None]. *)

Definition hasErrors (errors : option ValidationErrors) : bool :=
  match errors with
  | None => false
  | Some errors => Nat.ltb 0 (List.length (objectKeys errors))
  end.

Definition getErrorMessages (errors : option ValidationErrors) : list string :=
  match errors with
  | None => []
  | Some errors => objectValues errors
  end.

Record DisplayError : Type := { field : string; message : string }.

Definition formatErrorsForDisplay (errors : ValidationErrors)
  : list DisplayError :=
  map (fun kv => {| field := fst kv; message := snd kv |}) errors.

Definition getSummaryMessage (errors : ValidationErrors) : string :=
  let errorCount := List.length (objectKeys errors) in
  if Nat.eqb errorCount 0 then ""
  else if Nat.eqb errorCount 1 then hd "" (objectValues errors)
  else (toString (Num.ofZ (Z.of_nat errorCount))
        ++ " validation errors found. Please check your inputs.")%string.

(** [errorObjects.reduce((merged, current) => ({ ...merged, ...current }), {})]. *)
Definition mergeErrors (errorObjects : list ValidationErrors)
  : ValidationErrors :=
  fold_left (fun merged current => spread merged current) errorObjects [].

(** *** ScenarioComparison (src/components/calculator/ScenarioComparison.tsx)

    [comparisonResult] is the callback of [scenarios.map] inside
    [allResults]: the result of the entry point chosen from the business
    type, or the placeholder of the [catch] branch. *)
Definition placeholderResults (scenario : Scenario) : CalculationResults :=
  {| scenarioId := id scenario;
     totalDeveloperCost := Num.ofZ 0;
     costAvoidance := Num.ofZ 0;
     roiMultiple := Num.ofZ 0;
     roiPercentage := Num.ofZ 0;
     grossMarginImprovement := None;
     profitImpact := None;
     profitBoostPercentage := None;
     supportingMetrics :=
       {| deploymentsPerBuilder := Num.ofZ 0;
          interventionsReduction := Num.ofZ 0;
          incidentReduction := Num.ofZ 0 |};
     calculationSteps := [] |}.

Definition comparisonResult (scenario : Scenario) : CalculationResults :=
  match calculateForBusinessType scenario with
  | Return results => results
  | Throw _ => placeholderResults scenario
  end.

(** [allResults]: the [results] prop itself when it is given and has as
    many elements as there are scenarios
    ([results && results.length === scenarios.length]), otherwise one
    computed element per scenario.  [None] is a missing prop. *)
Definition allResults (scenarios : list Scenario)
    (results : option (list CalculationResults)) : list CalculationResults :=
  match results with
  | Some supplied =>
      if Nat.eqb (List.length supplied) (List.length scenarios) then supplied
      else map comparisonResult scenarios
  | None => map comparisonResult scenarios
  end.

End Callers.

(** *** NumberFormatter (src/utils/NumberFormatter.ts): scale detection *)

Module NumberFormatter.

Inductive OrganizationScale : Type := small | medium | large | enterprise.

(** [Math.abs]. *)
Definition abs (x : number) : number := SFabs x.

(** [SCALE_THRESHOLDS] and [ENTERPRISE_WARNING_THRESHOLD]. *)
Definition SCALE_small_max : number := Num.ofZ 2500000.
Definition SCALE_medium_max : number := Num.ofZ 65000000.
Definition SCALE_large_max : number := Num.ofZ 140000000.
Definition ENTERPRISE_WARNING_THRESHOLD : number := Num.ofZ 10000000.

Definition getScaleIndicator (amount : number) : OrganizationScale :=
  let absAmount := abs amount in
  if Num.leb absAmount SCALE_small_max then small
  else if Num.leb absAmount SCALE_medium_max then medium
  else if Num.leb absAmount SCALE_large_max then large
  else enterprise.

Definition shouldShowScaleWarning (amount : number) : bool :=
  Num.gtb (abs amount) ENTERPRISE_WARNING_THRESHOLD.

Definition isEnterpriseScale (costAvoidance : number) : bool :=
  Num.gtb (abs costAvoidance) ENTERPRISE_WARNING_THRESHOLD.

Definition getScaleWarningMessage (amount : number) : option string :=
  if negb (shouldShowScaleWarning amount) then None
  else
    let scale := getScaleIndicator amount in
    match scale with
    | enterprise =>
        Some "These are enterprise-scale results. Consider reviewing your inputs or exploring smaller-scale scenarios for comparison."
    | _ =>
        Some "This result represents a significant investment. Please verify your inputs are realistic for your organization size."
    end.

Definition getDecimalPlaces (amount : number) : Z :=
  let absAmount := abs amount in
  if Num.leb (Num.ofZ 1000000) absAmount then 0
  else if Num.leb (Num.ofZ 10000) absAmount then 0
  else if Num.leb (Num.ofZ 1000) absAmount then 1
  else 2.

End NumberFormatter.

(** *** useScenarioManager (src/hooks/useScenarioManager.ts)

    The updaters that the hook passes to [setScenarios]. *)

(** [prev.findIndex(s => s.id === id)], [None] for [-1]. *)
Fixpoint findIndex (scenarioId : string) (prev : list Scenario) : option nat :=
  match prev with
  | [] => None
  | s :: rest =>
      if String.eqb (id s) scenarioId then Some 0%nat
      else option_map S (findIndex scenarioId rest)
  end.

(** [const updated = [...prev]; updated[index] = scenario], for an index
    inside the array. *)
Fixpoint setAt (index : nat) (scenario : Scenario) (prev : list Scenario)
  : list Scenario :=
  match prev, index with
  | [], _ => []
  | _ :: rest, O => scenario :: rest
  | s :: rest, S i => s :: setAt i scenario rest
  end.

(** [saveScenario]'s updater. *)
Definition saveUpdater (scenario : Scenario) (prev : list Scenario)
  : list Scenario :=
  match findIndex (id scenario) prev with
  | Some existingIndex => setAt existingIndex scenario prev
  | None => (prev ++ [scenario])%list
  end.

(** [deleteScenario]'s updater: [prev.filter(s => s.id !== id)]. *)
Definition deleteUpdater (scenarioId : string) (prev : list Scenario)
  : list Scenario :=
  filter (fun s => negb (String.eqb (id s) scenarioId)) prev.

(** [scenarios.find(s => s.id === id) || null], the lookup of
    [ScenarioManager.getScenario] on a list of scenarios. *)
Definition findScenario (scenarioId : string) (prev : list Scenario)
  : option Scenario :=
  find (fun s => String.eqb (id s) scenarioId) prev.

(** The keys that [validateScenario] can write. *)
Definition validationKeys : list string :=
  ["developerCount"; "annualCostPerDeveloper"; "ctsSwImprovementPercent";
   "solutionCost"; "revenuePercentage"; "general"].

(** An error mapping as [validateScenario] builds them: distinct keys, all
    among [validationKeys], and no empty message. *)
Definition wellFormedErrors (o : ValidationErrors) : Prop :=
  NoDup (objectKeys o)
  /\ Forall (fun kv => In (fst kv) validationKeys /\ snd kv <> "") o.

(** The message bound to [k] by the last of several error objects that has
    the key at all. *)
Definition lastBinding (k : string) (errorObjects : list ValidationErrors)
  : option string :=
  fold_left
    (fun found o => match getKey k o with Some v => Some v | None => found end)
    errorObjects None.

(** [{ ...scenario, id }]. *)
Definition withId (scenario : Scenario) (newId : string) : Scenario :=
  {| id := newId; name := name scenario;
     businessType := businessType scenario;
     developerCount := developerCount scenario;
     annualCostPerDeveloper := annualCostPerDeveloper scenario;
     ctsSwImprovementPercent := ctsSwImprovementPercent scenario;
     solutionCost := solutionCost scenario;
     revenuePercentage := revenuePercentage scenario;
     organizationSize := organizationSize scenario;
     notes := notes scenario;
     createdAt := createdAt scenario; updatedAt := updatedAt scenario |}.

(** [min <= x && x <= max] for a row of [VALIDATION_RANGES]. *)
Definition inRange (r : Range) (x : number) : bool :=
  Num.leb (min r) x && Num.leb x (max r).

(** The tech example with 400.5 developers and a revenue percentage of
    zero: every field lies inside its range. *)
Definition fractionalZeroRevenue : Scenario :=
  {| id := "scenario"; name := "Scenario"; businessType := tech;
     developerCount := Num.ofDec 4005 1;
     annualCostPerDeveloper := Num.ofZ 150000;
     ctsSwImprovementPercent := Num.ofZ 15;
     solutionCost := Num.ofZ 1000000;
     revenuePercentage := Some (Num.ofZ 0);
     organizationSize := None; notes := None;
     createdAt := 0; updatedAt := 0 |}.

(** * Properties *)

(** ** Objects as association lists *)

Lemma getKey_setKey_same (k v : string) (o : ValidationErrors) :
  getKey k (setKey k v o) = Some v.
Proof.
  induction o as [|[k' v'] rest IH]; simpl.
  - now rewrite String.eqb_refl.
  - destruct (String.eqb k' k) eqn:E; simpl; rewrite E; auto.
Qed.

Lemma getKey_setKey_other (k k' v : string) (o : ValidationErrors) :
  k' <> k -> getKey k (setKey k' v o) = getKey k o.
Proof.
  intros Hne. induction o as [|[k0 v0] rest IH]; simpl.
  - destruct (String.eqb k' k) eqn:E; auto.
    apply String.eqb_eq in E. contradiction.
  - destruct (String.eqb k0 k') eqn:E0; simpl.
    + apply String.eqb_eq in E0. subst k0.
      destruct (String.eqb k' k) eqn:E; auto.
      apply String.eqb_eq in E. contradiction.
    + destruct (String.eqb k0 k); auto.
Qed.

Lemma setKey_not_nil (k v : string) (o : ValidationErrors) : setKey k v o <> [].
Proof.
  destruct o as [|[k' v'] rest]; simpl; [discriminate|].
  destruct (String.eqb k' k); discriminate.
Qed.

Lemma objectAssign_not_nil (target source : ValidationErrors) :
  target <> [] -> objectAssign target source <> [].
Proof.
  unfold objectAssign. revert target.
  induction source as [|[k v] rest IH]; simpl; intros target Ht; auto.
  apply IH, setKey_not_nil.
Qed.

Lemma objectAssign_nil_inv (target source : ValidationErrors) :
  objectAssign target source = [] -> target = [] /\ source = [].
Proof.
  intros H. destruct source as [|[k v] rest].
  - simpl in H. auto.
  - exfalso. unfold objectAssign in H. simpl in H.
    revert H. apply (objectAssign_not_nil (setKey k v target) rest).
    apply setKey_not_nil.
Qed.

Lemma getKey_setIfTruthy_other (k k' : string) (e : option string)
    (o : ValidationErrors) :
  k' <> k -> getKey k (setIfTruthy k' e o) = getKey k o.
Proof.
  intros Hne. unfold setIfTruthy. destruct e as [v|]; auto.
  destruct (truthyStr (Some v)); auto using getKey_setKey_other.
Qed.

Lemma keys_nonempty (o : ValidationErrors) :
  Nat.ltb 0 (List.length (objectKeys o)) = match o with [] => false | _ => true end.
Proof. destruct o; reflexivity. Qed.

(** ** Binary64 rounding

    A product of two normal mantissas that is not too small rounds to a
    normal number or overflows to infinity; it never underflows to zero. *)

Lemma digits2_pos_bounds (p : positive) :
  2 ^ (Z.pos (digits2_pos p) - 1) <= Z.pos p < 2 ^ Z.pos (digits2_pos p).
Proof.
  induction p as [p IH|p IH|]; cbn [digits2_pos].
  - rewrite Pos2Z.inj_succ.
    replace (Z.succ (Z.pos (digits2_pos p)) - 1) with (Z.succ (Z.pos (digits2_pos p) - 1)) by lia.
    rewrite !Z.pow_succ_r by lia. lia.
  - rewrite Pos2Z.inj_succ.
    replace (Z.succ (Z.pos (digits2_pos p)) - 1) with (Z.succ (Z.pos (digits2_pos p) - 1)) by lia.
    rewrite !Z.pow_succ_r by lia. lia.
  - simpl. lia.
Qed.

Lemma digits2_pos_unique (p : positive) (k : Z) :
  2 ^ (k - 1) <= Z.pos p < 2 ^ k -> Z.pos (digits2_pos p) = k.
Proof.
  intros [Hlo Hhi]. pose proof (digits2_pos_bounds p) as [Blo Bhi].
  set (d := Z.pos (digits2_pos p)) in *.
  assert (Hd : 0 < d) by (subst d; lia).
  destruct (Z.lt_trichotomy d k) as [Hlt|[Heq|Hgt]]; auto; exfalso.
  - assert (2 ^ d <= 2 ^ (k - 1)) by (apply Z.pow_le_mono_r; lia). lia.
  - destruct (Z.le_gt_cases 0 k) as [Hk|Hk].
    + assert (2 ^ k <= 2 ^ (d - 1)) by (apply Z.pow_le_mono_r; lia). lia.
    + rewrite (Z.pow_neg_r 2 k) in Hhi by lia. lia.
Qed.

Lemma shr_1_m (mrs : shr_record) :
  0 <= shr_m mrs -> shr_m (shr_1 mrs) = shr_m mrs / 2.
Proof.
  destruct mrs as [m r s]. cbn [shr_m]. intros Hm.
  destruct m as [|[p|p|]|p]; cbn [shr_1 shr_m]; try lia;
    rewrite <- Z.div2_div; reflexivity.
Qed.

Lemma iter_shr_1_m (p : positive) (mrs : shr_record) :
  0 <= shr_m mrs ->
  shr_m (iter_pos shr_1 p mrs) = shr_m mrs / 2 ^ Z.pos p.
Proof.
  revert mrs. induction p as [p IH|p IH|]; intros mrs Hm; cbn [iter_pos].
  - assert (H1 : 0 <= shr_m (shr_1 mrs)) by (rewrite shr_1_m by lia; apply Z.div_pos; lia).
    assert (H2 : 0 <= shr_m (iter_pos shr_1 p (shr_1 mrs)))
      by (rewrite IH by lia; apply Z.div_pos; lia).
    rewrite IH, IH, shr_1_m by lia.
    rewrite !Z.div_div by lia.
    f_equal.
    replace (Z.pos p~1) with (1 + Z.pos p + Z.pos p) by lia.
    rewrite !Z.pow_add_r by lia. lia.
  - assert (H2 : 0 <= shr_m (iter_pos shr_1 p mrs))
      by (rewrite IH by lia; apply Z.div_pos; lia).
    rewrite IH, IH by lia.
    rewrite !Z.div_div by lia.
    f_equal.
    replace (Z.pos p~0) with (Z.pos p + Z.pos p) by lia.
    rewrite !Z.pow_add_r by lia. lia.
  - rewrite shr_1_m by lia. reflexivity.
Qed.

Lemma round_nearest_even_bounds (m : Z) (l : location) :
  m <= round_nearest_even m l <= m + 1.
Proof.
  destruct l as [|[| |]]; cbn [round_nearest_even]; try lia.
  destruct (Z.even m); lia.
Qed.

Lemma shr_fexp_first (M : positive) (E : Z) :
  2 ^ 104 <= Z.pos M < 2 ^ 106 -> -1126 <= E ->
  2 ^ 52 <= shr_m (fst (shr_fexp Num.prec Num.emax (Z.pos M) E loc_Exact)) < 2 ^ 53
  /\ E + 52 <= snd (shr_fexp Num.prec Num.emax (Z.pos M) E loc_Exact).
Proof.
  intros HM HE. unfold shr_fexp, fexp, emin, Num.prec, Num.emax. cbn [Zdigits2 shr_record_of_loc].
  pose proof (digits2_pos_bounds M) as HB.
  set (d := Z.pos (digits2_pos M)) in *.
  assert (Hd : d = 105 \/ d = 106).
  { assert (104 < d).
    { destruct (Z.le_gt_cases d 104) as [H|H]; [|lia].
      assert (2 ^ d <= 2 ^ 104) by (apply Z.pow_le_mono_r; lia). lia. }
    assert (d - 1 < 106).
    { destruct (Z.le_gt_cases 106 (d - 1)) as [H'|H']; [|lia].
      assert (2 ^ 106 <= 2 ^ (d - 1)) by (apply Z.pow_le_mono_r; lia). lia. }
    lia. }
  destruct Hd as [Hd|Hd]; rewrite Hd in *.
  - replace (Z.max (105 + E - 53) (3 - 1024 - 53) - E) with 52 by lia.
    unfold shr. cbn [fst snd]. rewrite iter_shr_1_m by (cbn; lia). cbn [shr_m].
    split; [|lia]. split.
    + apply Z.div_le_lower_bound; [lia|]. change (2 ^ 52 * 2 ^ 52) with (2 ^ 104). lia.
    + apply Z.div_lt_upper_bound; [lia|]. change (2 ^ 52 * 2 ^ 53) with (2 ^ (106 - 1)). lia.
  - replace (Z.max (106 + E - 53) (3 - 1024 - 53) - E) with 53 by lia.
    unfold shr. cbn [fst snd]. rewrite iter_shr_1_m by (cbn; lia). cbn [shr_m].
    split; [|lia]. split.
    + apply Z.div_le_lower_bound; [lia|]. change (2 ^ 53 * 2 ^ 52) with (2 ^ (106 - 1)). lia.
    + apply Z.div_lt_upper_bound; [lia|]. change (2 ^ 53 * 2 ^ 53) with (2 ^ 106). lia.
Qed.

Lemma shr_fexp_second (m : Z) (E : Z) :
  2 ^ 52 <= m <= 2 ^ 53 -> -1074 <= E ->
  exists q : positive,
    shr_m (fst (shr_fexp Num.prec Num.emax m E loc_Exact)) = Z.pos q
    /\ Z.pos (digits2_pos q) = 53
    /\ E <= snd (shr_fexp Num.prec Num.emax m E loc_Exact).
Proof.
  intros Hm HE. destruct m as [|q|q]; try lia.
  unfold shr_fexp, fexp, emin, Num.prec, Num.emax. cbn [Zdigits2 shr_record_of_loc].
  destruct (Z.eq_dec (Z.pos q) (2 ^ 53)) as [Heq|Hne].
  - injection Heq as ->. cbn [digits2_pos Pos.succ].
    replace (Z.max (54 + E - 53) (3 - 1024 - 53) - E) with 1 by lia.
    cbn. exists (2 ^ 52)%positive. repeat split; try reflexivity. lia.
  - assert (Hd : Z.pos (digits2_pos q) = 53)
      by (apply digits2_pos_unique; change (2 ^ (53 - 1)) with (2 ^ 52); lia).
    rewrite Hd.
    replace (Z.max (53 + E - 53) (3 - 1024 - 53) - E) with 0 by lia.
    cbn [shr fst snd shr_m]. exists q. repeat split; auto; lia.
Qed.

Lemma binary_round_aux_normal (M : positive) (E : Z) :
  2 ^ 104 <= Z.pos M < 2 ^ 106 -> -1126 <= E ->
  binary_round_aux Num.prec Num.emax false (Z.pos M) E loc_Exact = S754_infinity false
  \/ exists (m : positive) (e : Z),
       binary_round_aux Num.prec Num.emax false (Z.pos M) E loc_Exact = S754_finite false m e
       /\ Z.pos (digits2_pos m) = 53 /\ E + 52 <= e.
Proof.
  intros HM HE. unfold binary_round_aux.
  destruct (shr_fexp_first M E HM HE) as (H1 & H2).
  destruct (shr_fexp Num.prec Num.emax (Z.pos M) E loc_Exact) as [mrs1 e1]. cbn [fst snd] in H1, H2.
  pose proof (round_nearest_even_bounds (shr_m mrs1) (loc_of_shr_record mrs1)) as HR.
  set (m2 := round_nearest_even (shr_m mrs1) (loc_of_shr_record mrs1)) in *.
  destruct (shr_fexp_second m2 e1) as (q & Hq & Hd & He); [lia|lia|].
  destruct (shr_fexp Num.prec Num.emax m2 e1 loc_Exact) as [mrs2 e2]. cbn [fst snd] in Hq, He.
  rewrite Hq. destruct (e2 <=? Num.emax - Num.prec); [right|left; reflexivity].
  exists q, e2. repeat split; auto; lia.
Qed.

(** Positive numbers of magnitude at least [2 ^ (k + 52)]: [+Infinity], or
    a positive normal double with exponent at least [k]. *)
Lemma mul_positive_normal (m1 m2 : positive) (e1 e2 : Z) :
  Z.pos (digits2_pos m1) = 53 -> Z.pos (digits2_pos m2) = 53 ->
  -1126 <= e1 + e2 ->
  Num.mul (S754_finite false m1 e1) (S754_finite false m2 e2)
  = S754_infinity false
  \/ exists (m : positive) (e : Z),
       Num.mul (S754_finite false m1 e1) (S754_finite false m2 e2)
       = S754_finite false m e
       /\ Z.pos (digits2_pos m) = 53 /\ e1 + e2 + 52 <= e.
Proof.
  intros H1 H2 HE. unfold Num.mul, SFmul. cbn [xorb].
  apply binary_round_aux_normal; [|exact HE].
  pose proof (digits2_pos_bounds m1) as B1.
  pose proof (digits2_pos_bounds m2) as B2.
  rewrite H1 in B1. rewrite H2 in B2.
  change (2 ^ (53 - 1)) with (2 ^ 52) in B1, B2.
  rewrite Pos2Z.inj_mul.
  change (2 ^ 104) with (2 ^ 52 * 2 ^ 52).
  change (2 ^ 106) with (2 ^ 53 * 2 ^ 53).
  split.
  - apply Z.mul_le_mono_nonneg; lia.
  - apply Z.mul_lt_mono_nonneg; lia.
Qed.

Lemma wf_normal (s : bool) (m : positive) (e : Z) :
  Num.wf (S754_finite s m e) = true -> -1074 < e ->
  Z.pos (digits2_pos m) = 53.
Proof.
  unfold Num.wf, valid_binary, bounded, canonical_mantissa, fexp, emin,
    Num.prec, Num.emax.
  intros H He. apply andb_prop in H. destruct H as [H _].
  apply Z.eqb_eq in H. lia.
Qed.

Section Properties.

Context {fmt : NumberFormat}.

Local Open Scope num_scope.

(** ** The validation preamble of the two entry points *)

Lemma traditional_of_errors (s : Scenario) :
  validateScenario s <> [] ->
  calculateTraditionalBusiness s = Throw (validationFailed (validateScenario s)).
Proof.
  intros H. unfold calculateTraditionalBusiness, validateInputs.
  rewrite keys_nonempty. destruct (validateScenario s); [contradiction|reflexivity].
Qed.

Lemma tech_of_errors (s : Scenario) :
  validateScenario s <> [] ->
  calculateTechCompany s = Throw (validationFailed (validateScenario s)).
Proof.
  intros H. unfold calculateTechCompany, validateInputs.
  rewrite keys_nonempty. destruct (validateScenario s); [contradiction|reflexivity].
Qed.

Lemma traditional_of_valid (s : Scenario) :
  validateScenario s = [] ->
  exists r : CalculationResults,
    calculateTraditionalBusiness s = Return r
    /\ scenarioId r = id s
    /\ totalDeveloperCost r = developerCount s * annualCostPerDeveloper s
    /\ costAvoidance r
       = totalDeveloperCost r * (ctsSwImprovementPercent s / Num.ofZ 100)
    /\ roiMultiple r = costAvoidance r / solutionCost s
    /\ roiPercentage r = (roiMultiple r - Num.ofZ 1) * Num.ofZ 100
    /\ map step (calculationSteps r) = [1; 2; 3]%Z
    /\ map result (calculationSteps r)
       = [totalDeveloperCost r; costAvoidance r; roiMultiple r]
    /\ lacksTechFields r.
Proof.
  intros H. unfold calculateTraditionalBusiness, validateInputs.
  rewrite H. cbn [objectKeys map List.length Nat.ltb Nat.leb].
  cbv beta iota zeta. eexists. split; [reflexivity|].
  unfold lacksTechFields. cbn.
  repeat match goal with |- _ /\ _ => split end; reflexivity.
Qed.

(** C1. For every scenario of business type traditional on which
    [validateScenario] reports no error, [calculateTraditionalBusiness]
    returns a result with
    totalDeveloperCost = developerCount × annualCostPerDeveloper,
    costAvoidance = totalDeveloperCost × (ctsSwImprovementPercent / 100),
    roiMultiple = costAvoidance / solutionCost,
    roiPercentage = (roiMultiple − 1) × 100,
    and exactly three steps, numbered 1, 2, 3 in that order, whose results
    are totalDeveloperCost, costAvoidance and roiMultiple; roiPercentage has
    no step of its own.  All operations are those of binary64 arithmetic. *)
Theorem C1_traditional_pipeline (s : Scenario) :
  businessType s = traditional ->
  validateScenario s = [] ->
  exists r : CalculationResults,
    calculateTraditionalBusiness s = Return r
    /\ totalDeveloperCost r = developerCount s * annualCostPerDeveloper s
    /\ costAvoidance r
       = totalDeveloperCost r * (ctsSwImprovementPercent s / Num.ofZ 100)
    /\ roiMultiple r = costAvoidance r / solutionCost s
    /\ roiPercentage r = (roiMultiple r - Num.ofZ 1) * Num.ofZ 100
    /\ List.length (calculationSteps r) = 3%nat
    /\ map step (calculationSteps r) = [1; 2; 3]%Z
    /\ map result (calculationSteps r)
       = [totalDeveloperCost r; costAvoidance r; roiMultiple r].
Proof.
  intros _ Hv.
  destruct (traditional_of_valid s Hv)
    as (r & H0 & _ & H1 & H2 & H3 & H4 & H5 & H6 & _).
  exists r. repeat match goal with |- _ /\ _ => split end; auto.
  rewrite <- (length_map step), H5. reflexivity.
Qed.

Lemma join_concat (sep : string) (l : list string) :
  join sep l = String.concat sep l.
Proof.
  induction l as [|x [|y rest] IH]; [reflexivity|reflexivity|].
  change (join sep (x :: y :: rest))
    with (x ++ sep ++ join sep (y :: rest))%string.
  rewrite IH. reflexivity.
Qed.

(** C3. Whenever [validateScenario] returns a non-empty mapping, both entry
    points throw one error and return nothing; its message is the fixed
    prefix "Validation failed: " followed by all messages of the mapping, in
    the mapping's order, with ", " between consecutive messages: the
    standard library's [String.concat] of the messages, which for one, two
    and three messages is [m1], [m1 ++ ", " ++ m2] and
    [m1 ++ ", " ++ m2 ++ ", " ++ m3].  The scenario with no developers yields
    three messages (developer count, cost ratio, small team), all present,
    in that order.  Whenever the mapping is empty,
    [calculateTraditionalBusiness] returns a result and
    [calculateTechCompany] does not throw a validation error. *)
Theorem C3_validation_preamble (s : Scenario) :
  (validateScenario s <> [] ->
     calculateTraditionalBusiness s
     = Throw ("Validation failed: "
              ++ String.concat ", " (map snd (validateScenario s)))%string
     /\ calculateTechCompany s
        = Throw ("Validation failed: "
                 ++ String.concat ", " (map snd (validateScenario s)))%string)
  /\ (forall k1 m1,
        validateScenario s = [(k1, m1)] ->
        calculateTraditionalBusiness s
        = Throw ("Validation failed: " ++ m1)%string
        /\ calculateTechCompany s
           = Throw ("Validation failed: " ++ m1)%string)
  /\ (forall k1 m1 k2 m2,
        validateScenario s = [(k1, m1); (k2, m2)] ->
        calculateTraditionalBusiness s
        = Throw ("Validation failed: " ++ m1 ++ ", " ++ m2)%string
        /\ calculateTechCompany s
           = Throw ("Validation failed: " ++ m1 ++ ", " ++ m2)%string)
  /\ (forall k1 m1 k2 m2 k3 m3,
        validateScenario s = [(k1, m1); (k2, m2); (k3, m3)] ->
        calculateTraditionalBusiness s
        = Throw ("Validation failed: " ++ m1 ++ ", " ++ m2 ++ ", " ++ m3)%string
        /\ calculateTechCompany s
           = Throw ("Validation failed: " ++ m1 ++ ", " ++ m2 ++ ", " ++ m3)%string)
  /\ (calculateTraditionalBusiness invalidExample
      = Throw ("Validation failed: "
               ++ ("Developer count must be at least " ++ toString (Num.ofZ 1))
               ++ ", "
               ++ highCostMessage invalidExample (Num.ofZ 0)
               ++ ", "
               ++ smallTeamMessage invalidExample)%string
      /\ calculateTechCompany invalidExample
         = calculateTraditionalBusiness invalidExample)
  /\ (validateScenario s = [] ->
        (exists r, calculateTraditionalBusiness s = Return r)
        /\ (forall m : string,
              calculateTraditionalBusiness s
              <> Throw ("Validation failed: " ++ m)%string)
        /\ (forall m : string,
              calculateTechCompany s
              <> Throw ("Validation failed: " ++ m)%string)).
Proof.
  assert (Hgen : validateScenario s <> [] ->
                 calculateTraditionalBusiness s
                 = Throw ("Validation failed: "
                          ++ String.concat ", " (map snd (validateScenario s)))%string
                 /\ calculateTechCompany s
                    = Throw ("Validation failed: "
                             ++ String.concat ", "
                                  (map snd (validateScenario s)))%string).
  { intros H. rewrite (traditional_of_errors s H), (tech_of_errors s H).
    unfold validationFailed, objectValues. rewrite join_concat. auto. }
  split; [exact Hgen|].
  split; [intros k1 m1 E; destruct Hgen as [H1 H2];
          [rewrite E; discriminate|]; rewrite H1, H2, E; auto|].
  split; [intros k1 m1 k2 m2 E; destruct Hgen as [H1 H2];
          [rewrite E; discriminate|]; rewrite H1, H2, E; auto|].
  split; [intros k1 m1 k2 m2 k3 m3 E; destruct Hgen as [H1 H2];
          [rewrite E; discriminate|]; rewrite H1, H2, E; auto|].
  split.
  - assert (Hv : validateScenario invalidExample
                 = [("developerCount",
                     "Developer count must be at least "
                     ++ toString (Num.ofZ 1));
                    ("solutionCost",
                     highCostMessage invalidExample (Num.ofZ 0));
                    ("general", smallTeamMessage invalidExample)]%string)
      by (vm_compute; reflexivity).
    assert (Hne : validateScenario invalidExample <> [])
      by (rewrite Hv; discriminate).
    rewrite (tech_of_errors _ Hne), (traditional_of_errors _ Hne).
    split; [|reflexivity].
    unfold validationFailed, objectValues. rewrite Hv. reflexivity.
  - intros H. destruct (traditional_of_valid s H) as (r & Hr & _).
    split; [eauto|]. split; intros m.
    + rewrite Hr. discriminate.
    + unfold calculateTechCompany, validateInputs. rewrite H, Hr.
      cbn [objectKeys map List.length Nat.ltb Nat.leb].
      destruct (negb (truthyOpt (revenuePercentage s))).
      * intros E. inversion E.
      * cbn [bind]. discriminate.
Qed.


Lemma tech_of_valid (s : Scenario) :
  validateScenario s = [] ->
  truthyOpt (revenuePercentage s) = true ->
  exists basic r : CalculationResults,
    calculateTraditionalBusiness s = Return basic
    /\ calculateTechCompany s = Return r
    /\ scenarioId r = scenarioId basic
    /\ totalDeveloperCost r = totalDeveloperCost basic
    /\ costAvoidance r = costAvoidance basic
    /\ roiMultiple r = roiMultiple basic
    /\ roiPercentage r = roiPercentage basic
    /\ supportingMetrics r = supportingMetrics basic
    /\ grossMarginImprovement r
       = Some (costAvoidance r
               * (toNumber (revenuePercentage s) / Num.ofZ 100))
    /\ profitImpact r = grossMarginImprovement r
    /\ profitBoostPercentage r
       = Some (if estimatedCurrentProfit s >? Num.ofZ 0
               then (toNumber (profitImpact r) / estimatedCurrentProfit s)
                    * Num.ofZ 100
               else Num.ofZ 0)
    /\ map step (calculationSteps r) = [1; 2; 3; 4; 5; 6]%Z
    /\ map result (calculationSteps r)
       = [totalDeveloperCost r; costAvoidance r; roiMultiple r;
          toNumber (grossMarginImprovement r); toNumber (profitImpact r);
          toNumber (profitBoostPercentage r)]
    /\ firstn 3 (calculationSteps r) = calculationSteps basic.
Proof.
  intros Hv Ht.
  destruct (traditional_of_valid s Hv)
    as (basic & Hr & _ & H1 & H2 & H3 & H4 & H5 & H6 & _).
  exists basic.
  unfold calculateTechCompany, validateInputs.
  rewrite Hv, Hr, Ht. cbn [objectKeys map List.length Nat.ltb Nat.leb negb bind].
  eexists. split; [reflexivity|]. split; [reflexivity|].
  unfold extendWithTech, estimatedCurrentProfit.
  cbn [scenarioId totalDeveloperCost costAvoidance roiMultiple roiPercentage
       supportingMetrics grossMarginImprovement profitImpact
       profitBoostPercentage calculationSteps toNumber].
  rewrite !map_app, H5, H6, ?H3, ?H2, ?H1.
  repeat match goal with |- _ /\ _ => split end; try reflexivity.
  remember (calculationSteps basic) as l eqn:El.
  assert (Hl : List.length l = 3%nat)
    by (rewrite <- (length_map step), H5; reflexivity).
  destruct l as [|a [|b [|c [|d l]]]]; try discriminate Hl. reflexivity.
Qed.

(** C2 (at the input where the code departs from it).  The tech reference
    scenario with a revenue percentage of 0 passes [validateScenario] with
    no error, since 0 lies in the inclusive range [0, 100], and its revenue
    percentage is present; [calculateTechCompany] nevertheless throws
    instead of returning the six-step result. *)
Theorem C2_zero_revenue_throws :
  businessType techZeroRevenue = tech
  /\ validateScenario techZeroRevenue = []
  /\ revenuePercentage techZeroRevenue = Some (Num.ofZ 0)
  /\ calculateTechCompany techZeroRevenue
     = Throw "Revenue percentage is required for tech company calculations".
Proof.
  assert (Hv : validateScenario techZeroRevenue = []) by (vm_compute; reflexivity).
  split; [reflexivity|]. split; [exact Hv|]. split; [reflexivity|].
  unfold calculateTechCompany, validateInputs. rewrite Hv. reflexivity.
Qed.

(** The reference tech scenario: 400 developers at 150,000, 15% improvement,
    solution cost 1,000,000, revenue percentage 60. *)
Lemma tech_reference_scenario :
  exists r : CalculationResults,
    calculateTechCompany techExample = Return r
    /\ totalDeveloperCost r = Num.ofZ 60000000
    /\ costAvoidance r = Num.ofZ 9000000
    /\ roiMultiple r = Num.ofZ 9
    /\ grossMarginImprovement r = Some (Num.ofZ 5400000)
    /\ profitImpact r = Some (Num.ofZ 5400000)
    /\ estimatedCurrentProfit techExample = Num.ofZ 6000000
    /\ profitBoostPercentage r = Some (Num.ofZ 90)
    /\ List.length (calculationSteps r) = 6%nat.
Proof.
  assert (Hv : validateScenario techExample = []) by (vm_compute; reflexivity).
  destruct (tech_of_valid techExample Hv eq_refl)
    as (basic & r & Hb & Hr & _ & H1 & H2 & H3 & _ & _ & H6 & H7 & H8 & H9 & _).
  destruct (traditional_of_valid techExample Hv)
    as (basic' & Hb' & _ & T1 & T2 & T3 & _).
  assert (basic' = basic) by congruence. subst basic'.
  exists r. split; [exact Hr|].
  rewrite H8, H7, H6, H3, H2, H1, T3, T2, T1.
  rewrite <- (length_map step), H9.
  repeat match goal with |- _ /\ _ => split end; vm_compute; reflexivity.
Qed.


(** ** Revenue percentage: the validator's rule and the calculator's check *)

Lemma fieldErrors_of_valid (s : Scenario) :
  commonFieldsValid s ->
  fieldErrors s
  = match businessType s with
    | tech =>
        setIfTruthy "revenuePercentage"
          (validateRevenuePercentage (ofOption (revenuePercentage s))) []
    | traditional => []
    end.
Proof.
  intros (Hd & Ha & Hc & Hs). unfold fieldErrors.
  rewrite Hd, Ha, Hc, Hs. reflexivity.
Qed.

Lemma revenue_key_of_missing (s : Scenario) :
  businessType s = tech ->
  revenuePercentage s = None ->
  getKey "revenuePercentage" (fieldErrors s)
  = Some "Revenue percentage is required for tech companies".
Proof.
  intros Hb Hr. unfold fieldErrors. rewrite Hb, Hr.
  cbn [ofOption validateRevenuePercentage].
  unfold setIfTruthy at 1. cbn [truthyStr].
  apply getKey_setKey_same.
Qed.

Lemma getKey_cross_other (k : string) (s : Scenario) (o : ValidationErrors) :
  k <> "solutionCost" -> k <> "ctsSwImprovementPercent" -> k <> "general" ->
  getKey k (objectAssign o (validateCrossFieldConstraints s)) = getKey k o.
Proof.
  intros H1 H2 H3. unfold validateCrossFieldConstraints.
  cbv zeta.
  destruct (_ >? Num.ofDec 5 1); destruct (_ && _); destruct (_ && _);
    cbn [setKey String.eqb Ascii.eqb Bool.eqb objectAssign fold_left fst snd];
    rewrite ?getKey_setKey_other by congruence; reflexivity.
Qed.

(** C4 (as the code has it).  For a tech scenario without a revenue
    percentage, [validateScenario] records the validator's message under the
    key revenuePercentage, so [calculateTechCompany] fails in the validation
    preamble, with "Validation failed: " followed by the joined messages; when
    the other fields pass and no cross-field heuristic fires, this is
    exactly "Validation failed: Revenue percentage is required for tech
    companies".  The calculator's own check comes after the preamble and is made
    whatever the validator decided: a scenario without a revenue percentage
    on which [validateScenario] reports nothing fails with "Revenue
    percentage is required for tech company calculations". *)
Theorem C4_missing_revenue (s : Scenario) :
  revenuePercentage s = None ->
  (businessType s = tech ->
     getKey "revenuePercentage" (validateScenario s)
     = Some "Revenue percentage is required for tech companies"
     /\ calculateTechCompany s
        = Throw ("Validation failed: "
                 ++ join ", " (map snd (validateScenario s)))%string
     /\ (commonFieldsValid s -> validateCrossFieldConstraints s = [] ->
           calculateTechCompany s
           = Throw "Validation failed: Revenue percentage is required for tech companies"))
  /\ (validateScenario s = [] ->
        calculateTechCompany s
        = Throw "Revenue percentage is required for tech company calculations").
Proof.
  intros Hr. split.
  - intros Hb.
    assert (Hk : getKey "revenuePercentage" (validateScenario s)
                 = Some "Revenue percentage is required for tech companies").
    { unfold validateScenario. cbv zeta.
      rewrite getKey_cross_other by discriminate.
      now apply revenue_key_of_missing. }
    assert (Hne : validateScenario s <> []).
    { intros E. rewrite E in Hk. discriminate. }
    split; [exact Hk|]. split; [now apply tech_of_errors|].
    intros Hc Hx. rewrite (tech_of_errors s Hne).
    unfold validateScenario. cbv zeta.
    rewrite (fieldErrors_of_valid s Hc), Hx, Hb, Hr. reflexivity.
  - intros Hv. unfold calculateTechCompany, validateInputs.
    rewrite Hv, Hr. reflexivity.
Qed.

(** ** Which results carry the tech-specific fields *)

Lemma traditional_return_inv (s : Scenario) (r : CalculationResults) :
  calculateTraditionalBusiness s = Return r -> validateScenario s = [].
Proof.
  intros H. destruct (validateScenario s) eqn:Hv; [reflexivity|].
  rewrite traditional_of_errors in H by (rewrite Hv; discriminate).
  discriminate.
Qed.

Lemma tech_return_inv (s : Scenario) (r : CalculationResults) :
  calculateTechCompany s = Return r ->
  validateScenario s = [] /\ truthyOpt (revenuePercentage s) = true.
Proof.
  intros H. destruct (validateScenario s) eqn:Hv.
  - split; [reflexivity|].
    unfold calculateTechCompany, validateInputs in H. rewrite Hv in H.
    cbn [objectKeys map List.length Nat.ltb Nat.leb] in H.
    destruct (truthyOpt (revenuePercentage s)); [reflexivity|discriminate].
  - rewrite tech_of_errors in H by (rewrite Hv; discriminate).
    discriminate.
Qed.

(** C7 (as the code has it).  Whatever the scenario's business type, a
    result returned by [calculateTraditionalBusiness] has none of
    grossMarginImprovement, profitImpact and profitBoostPercentage, and a
    result returned by [calculateTechCompany] has all three.  When the entry
    point is chosen from the business type, as every caller in the
    repository does, the three fields are present if and only if the
    business type is tech. *)
Theorem C7_tech_fields (s : Scenario) (r : CalculationResults) :
  (calculateTraditionalBusiness s = Return r -> lacksTechFields r)
  /\ (calculateTechCompany s = Return r -> hasTechFields r)
  /\ (calculateForBusinessType s = Return r ->
        (hasTechFields r <-> businessType s = tech)).
Proof.
  assert (HT : calculateTraditionalBusiness s = Return r -> lacksTechFields r).
  { intros H. pose proof (traditional_return_inv s r H) as Hv.
    destruct (traditional_of_valid s Hv)
      as (r' & Hr' & _ & _ & _ & _ & _ & _ & _ & Hl).
    assert (r' = r) by congruence. subst r'. exact Hl. }
  assert (HC : calculateTechCompany s = Return r -> hasTechFields r).
  { intros H. destruct (tech_return_inv s r H) as (Hv & Ht).
    destruct (tech_of_valid s Hv Ht)
      as (basic & r' & _ & Hr' & _ & _ & _ & _ & _ & _ & Hg & Hp & Hb & _).
    assert (r' = r) by congruence. subst r'.
    unfold hasTechFields. rewrite Hp, Hg, Hb.
    repeat match goal with |- _ /\ _ => split end; discriminate. }
  split; [exact HT|]. split; [exact HC|].
  unfold calculateForBusinessType. destruct (businessType s); intros H.
  - apply HT in H. destruct H as (Hg & _).
    split; [intros (Hg' & _); contradiction | discriminate].
  - split; [reflexivity | intros _; now apply HC].
Qed.


(** ** Cross-field heuristics *)

Lemma general_key_of_fields (s : Scenario) :
  getKey "general" (fieldErrors s) = None.
Proof.
  unfold fieldErrors. cbv zeta.
  destruct (businessType s);
    rewrite ?getKey_setIfTruthy_other by discriminate; reflexivity.
Qed.

(** C5. [validateScenario] runs the cross-field heuristics after the
    per-field checks and writes their messages into the same mapping, where
    a heuristic's message replaces a per-field message under the same key.
    With costRatio = solutionCost / (developerCount × annualCostPerDeveloper):
    the key solutionCost holds the high-cost message when costRatio > 0.5;
    the key ctsSwImprovementPercent holds the heuristic's message when
    costRatio < 0.005 and ctsSwImprovementPercent > 15; the key general is
    set when developerCount < 10 and solutionCost > 500,000 (and only then);
    otherwise a key holds what the per-field checks left there.  For 10
    developers at 100,000 and a solution cost of 600,000 the key
    solutionCost carries the heuristic's message although 600,000 passes
    [validateSolutionCost]; with a solution cost of 200,000,000 the
    heuristic's message replaces the per-field one. *)
Theorem C5_cross_field_heuristics :
  (forall s : Scenario,
     let total := developerCount s * annualCostPerDeveloper s in
     let costRatio := solutionCost s / total in
     validateScenario s
     = objectAssign (fieldErrors s) (validateCrossFieldConstraints s)
     /\ getKey "solutionCost" (validateScenario s)
        = (if costRatio >? Num.ofDec 5 1
           then Some (highCostMessage s total)
           else getKey "solutionCost" (fieldErrors s))
     /\ getKey "ctsSwImprovementPercent" (validateScenario s)
        = (if (costRatio <? Num.ofDec 5 3)
              && (ctsSwImprovementPercent s >? Num.ofZ 15)
           then Some (unrealisticMessage s)
           else getKey "ctsSwImprovementPercent" (fieldErrors s))
     /\ getKey "general" (validateScenario s)
        = (if (developerCount s <? Num.ofZ 10)
              && (solutionCost s >? Num.ofZ 500000)
           then Some (smallTeamMessage s)
           else None))
  /\ (validateSolutionCost (JNum (solutionCost highRatioExample)) = None
      /\ getKey "solutionCost" (validateScenario highRatioExample)
         = Some (highCostMessage highRatioExample (Num.ofZ 1000000)))
  /\ (getKey "solutionCost" (fieldErrors overMaxExample)
      = Some ("Solution cost cannot exceed $"
              ++ toLocaleString (Num.ofZ 100000000))%string
      /\ getKey "solutionCost" (validateScenario overMaxExample)
         = Some (highCostMessage overMaxExample (Num.ofZ 1000000))
      /\ getKey "solutionCost" (fieldErrors overMaxExample)
         <> getKey "solutionCost" (validateScenario overMaxExample)).
Proof.
  split; [|split].
  - intros s total costRatio. split; [reflexivity|].
    rewrite <- (general_key_of_fields s) at 1.
    unfold validateScenario, validateCrossFieldConstraints. cbv zeta.
    fold total. fold costRatio.
    destruct (costRatio >? Num.ofDec 5 1);
      destruct ((costRatio <? Num.ofDec 5 3)
                && (ctsSwImprovementPercent s >? Num.ofZ 15));
      destruct ((developerCount s <? Num.ofZ 10)
                && (solutionCost s >? Num.ofZ 500000));
      cbn [setKey String.eqb Ascii.eqb Bool.eqb objectAssign fold_left fst snd];
      (split; [|split]);
      rewrite ?getKey_setKey_same;
      rewrite ?getKey_setKey_other by discriminate;
      rewrite ?getKey_setKey_same;
      reflexivity.
  - split; vm_compute; reflexivity.
  - split; [vm_compute; reflexivity|]. split; [vm_compute; reflexivity|].
    vm_compute. discriminate.
Qed.

(** ** Range boundaries and non-finite values *)

Ltac reject_by H :=
  repeat match goal with
         | |- (if ?c then _ else _) <> None =>
             first [ rewrite H | destruct c ]; try discriminate
         end.

(** C6. Every ranged field's validator accepts a value equal to the
    configured minimum or maximum and rejects every number strictly below
    the minimum or strictly above the maximum: developerCount on
    [1, 50000], annualCostPerDeveloper on [50000, 300000],
    ctsSwImprovementPercent on [0.1, 50], solutionCost on
    [1000, 100000000], and revenuePercentage on [0, 100], the last one
    also through [validateField] for the business type tech. *)
Theorem C6_inclusive_ranges :
  inclusiveRange validateDeveloperCount VALIDATION_RANGES.developerCount
  /\ inclusiveRange validateAnnualCostPerDeveloper
       VALIDATION_RANGES.annualCostPerDeveloper
  /\ inclusiveRange validateCtsSwImprovement
       VALIDATION_RANGES.ctsSwImprovementPercent
  /\ inclusiveRange validateSolutionCost VALIDATION_RANGES.solutionCost
  /\ inclusiveRange validateRevenuePercentage
       VALIDATION_RANGES.revenuePercentage
  /\ inclusiveRange
       (fun value => validateField F_revenuePercentage value (Some tech))
       VALIDATION_RANGES.revenuePercentage.
Proof.
  unfold inclusiveRange.
  repeat match goal with |- _ /\ _ => split end;
    try reflexivity;
    intros x H;
    cbn [validateField];
    unfold validateDeveloperCount, validateAnnualCostPerDeveloper,
      validateCtsSwImprovement, validateSolutionCost,
      validateRevenuePercentage;
    reject_by H.
Qed.

(** C8. No per-field validator lets a non-finite number through.  NaN is
    caught by the first check of every validator, before the integer and
    range checks, and gets the "required" message.  Infinity and -Infinity
    are numbers for that check and are rejected by the checks after it:
    developerCount as not a whole number, the other fields as above the
    maximum (Infinity), as not greater than zero or as below the minimum
    (-Infinity). *)
Theorem C8_non_finite_rejected :
  (validateDeveloperCount (JNum Num.NaN)
   = Some "Developer count is required and must be a number"
   /\ validateDeveloperCount (JNum Num.Infinity)
      = Some "Developer count must be a whole number (no decimals)"
   /\ validateDeveloperCount (JNum Num.NegInfinity)
      = Some "Developer count must be a whole number (no decimals)")
  /\ (validateAnnualCostPerDeveloper (JNum Num.NaN)
      = Some "Annual cost per developer is required and must be a number"
      /\ validateAnnualCostPerDeveloper (JNum Num.Infinity)
         = Some ("Annual cost per developer cannot exceed $"
                 ++ toLocaleString (Num.ofZ 300000)
                 ++ " (AWS example: $130K)")%string
      /\ validateAnnualCostPerDeveloper (JNum Num.NegInfinity)
         = Some "Annual cost per developer must be greater than zero")
  /\ (validateCtsSwImprovement (JNum Num.NaN)
      = Some "CTS-SW improvement percentage is required and must be a number"
      /\ validateCtsSwImprovement (JNum Num.Infinity)
         = Some ("CTS-SW improvement cannot exceed "
                 ++ toString (Num.ofZ 50)
                 ++ "% (be realistic about achievable gains)")%string
      /\ validateCtsSwImprovement (JNum Num.NegInfinity)
         = Some "CTS-SW improvement percentage must be greater than zero")
  /\ (validateSolutionCost (JNum Num.NaN)
      = Some "Solution cost is required and must be a number"
      /\ validateSolutionCost (JNum Num.Infinity)
         = Some ("Solution cost cannot exceed $"
                 ++ toLocaleString (Num.ofZ 100000000))%string
      /\ validateSolutionCost (JNum Num.NegInfinity)
         = Some "Solution cost must be greater than zero")
  /\ (validateRevenuePercentage (JNum Num.NaN)
      = Some "Revenue percentage is required for tech companies"
      /\ validateRevenuePercentage (JNum Num.Infinity)
         = Some ("Revenue percentage cannot exceed "
                 ++ toString (Num.ofZ 100) ++ "%")%string
      /\ validateRevenuePercentage (JNum Num.NegInfinity)
         = Some ("Revenue percentage must be at least "
                 ++ toString (Num.ofZ 0) ++ "%")%string).
Proof.
  repeat match goal with |- _ /\ _ => split end; reflexivity.
Qed.


(** ** The baseline profit of a validated scenario *)

Ltac truthy_cases :=
  repeat match goal with
         | |- context [if ?c then _ else _] => destruct c
         end;
  cbn; auto.

Lemma validateDeveloperCount_truthy (v : jsval) :
  validateDeveloperCount v = None
  \/ truthyStr (validateDeveloperCount v) = true.
Proof. unfold validateDeveloperCount. destruct v; truthy_cases. Qed.

Lemma validateAnnualCostPerDeveloper_truthy (v : jsval) :
  validateAnnualCostPerDeveloper v = None
  \/ truthyStr (validateAnnualCostPerDeveloper v) = true.
Proof. unfold validateAnnualCostPerDeveloper. destruct v; truthy_cases. Qed.

Lemma setIfTruthy_nil_inv (k : string) (e : option string)
    (o : ValidationErrors) :
  setIfTruthy k e o = [] -> o = [] /\ truthyStr e = false.
Proof.
  unfold setIfTruthy. destruct e as [v|]; [|auto].
  destruct (truthyStr (Some v)); [|auto].
  intros H. exfalso. revert H. apply setKey_not_nil.
Qed.

Lemma valid_scenario_fields (s : Scenario) :
  validateScenario s = [] ->
  validateDeveloperCount (JNum (developerCount s)) = None
  /\ validateAnnualCostPerDeveloper (JNum (annualCostPerDeveloper s)) = None.
Proof.
  intros H. apply objectAssign_nil_inv in H. destruct H as [H _].
  unfold fieldErrors in H. cbv zeta in H.
  assert (H4 : exists e3 e4,
             setIfTruthy "solutionCost" e4
               (setIfTruthy "ctsSwImprovementPercent" e3
                  (setIfTruthy "annualCostPerDeveloper"
                     (validateAnnualCostPerDeveloper
                        (JNum (annualCostPerDeveloper s)))
                     (setIfTruthy "developerCount"
                        (validateDeveloperCount (JNum (developerCount s)))
                        []))) = []).
  { destruct (businessType s).
    - eauto.
    - apply setIfTruthy_nil_inv in H. destruct H as [H _]. eauto. }
  destruct H4 as (e3 & e4 & H4).
  apply setIfTruthy_nil_inv in H4. destruct H4 as [H4 _].
  apply setIfTruthy_nil_inv in H4. destruct H4 as [H4 _].
  apply setIfTruthy_nil_inv in H4. destruct H4 as [H4 Ha].
  apply setIfTruthy_nil_inv in H4. destruct H4 as [_ Hd].
  split.
  - destruct (validateDeveloperCount_truthy (JNum (developerCount s)));
      [assumption|congruence].
  - destruct (validateAnnualCostPerDeveloper_truthy
                (JNum (annualCostPerDeveloper s)));
      [assumption|congruence].
Qed.

Lemma not_below_positive (x : number) (m0 : positive) (e0 : Z) :
  Num.wf x = true ->
  Num.isNaN x = false ->
  (x <? S754_finite false m0 e0) = false ->
  -1074 < e0 ->
  x = S754_infinity false
  \/ exists (m : positive) (e : Z),
       x = S754_finite false m e /\ Z.pos (digits2_pos m) = 53 /\ e0 <= e.
Proof.
  intros Hwf Hnan Hlt He0. unfold Num.ltb, SFltb in Hlt.
  destruct x as [sx|sx| |sx m e]; cbv beta iota delta [SFcompare] in Hlt.
  - destruct sx; discriminate.
  - destruct sx; [discriminate|]. left. reflexivity.
  - discriminate.
  - destruct sx; [discriminate|]. right.
    destruct (Z.compare_spec e e0) as [He|He|He]; try discriminate;
      exists m, e; (split; [reflexivity|]); (split; [|lia]);
      apply (wf_normal false m e Hwf); lia.
Qed.

Lemma developerCount_normal (x : number) :
  Num.wf x = true ->
  validateDeveloperCount (JNum x) = None ->
  exists (m : positive) (e : Z),
    x = S754_finite false m e /\ Z.pos (digits2_pos m) = 53 /\ -52 <= e.
Proof.
  intros Hwf H. unfold validateDeveloperCount in H.
  destruct (Num.isNaN x) eqn:Hnan; [discriminate|].
  destruct (negb (Num.isInteger x)) eqn:Hint; [discriminate|].
  destruct (x <? min VALIDATION_RANGES.developerCount) eqn:Hlt; [discriminate|].
  clear H.
  replace (min VALIDATION_RANGES.developerCount)
    with (S754_finite false 4503599627370496 (-52)) in Hlt
    by (vm_compute; reflexivity).
  destruct (not_below_positive x _ _ Hwf Hnan Hlt ltac:(lia)) as [->|Hx].
  - discriminate Hint.
  - exact Hx.
Qed.

Lemma annualCost_normal (x : number) :
  Num.wf x = true ->
  validateAnnualCostPerDeveloper (JNum x) = None ->
  x = S754_infinity false
  \/ exists (m : positive) (e : Z),
       x = S754_finite false m e /\ Z.pos (digits2_pos m) = 53 /\ -37 <= e.
Proof.
  intros Hwf H. unfold validateAnnualCostPerDeveloper in H.
  destruct (Num.isNaN x) eqn:Hnan; [discriminate|].
  destruct (x <=? Num.ofZ 0); [discriminate|].
  destruct (x <? min VALIDATION_RANGES.annualCostPerDeveloper) eqn:Hlt;
    [discriminate|].
  clear H.
  replace (min VALIDATION_RANGES.annualCostPerDeveloper)
    with (S754_finite false 6871947673600000 (-37)) in Hlt
    by (vm_compute; reflexivity).
  apply (not_below_positive x _ _ Hwf Hnan Hlt). lia.
Qed.

Lemma estimatedCurrentProfit_positive (s : Scenario) :
  Num.wf (developerCount s) = true ->
  Num.wf (annualCostPerDeveloper s) = true ->
  validateScenario s = [] ->
  (estimatedCurrentProfit s >? Num.ofZ 0) = true.
Proof.
  intros Wd Wa Hv.
  destruct (valid_scenario_fields s Hv) as [Hd Ha].
  destruct (developerCount_normal _ Wd Hd) as (m1 & e1 & X1 & D1 & E1).
  unfold estimatedCurrentProfit. rewrite X1.
  replace (Num.ofDec 10 2) with (S754_finite false 7205759403792794 (-56))
    by (vm_compute; reflexivity).
  replace (Num.ofZ 0) with (S754_zero false) by reflexivity.
  assert (D0 : Z.pos (digits2_pos 7205759403792794) = 53)
    by (vm_compute; reflexivity).
  assert (Htotal :
            S754_finite false m1 e1 * annualCostPerDeveloper s
            = S754_infinity false
            \/ exists (m : positive) (e : Z),
                 S754_finite false m1 e1 * annualCostPerDeveloper s
                 = S754_finite false m e
                 /\ Z.pos (digits2_pos m) = 53 /\ -37 <= e).
  { destruct (annualCost_normal _ Wa Ha) as [X2|(m2 & e2 & X2 & D2 & E2)];
      rewrite X2.
    - left. reflexivity.
    - destruct (mul_positive_normal m1 m2 e1 e2 D1 D2 ltac:(lia))
        as [->|(m & e & -> & D & E)]; [left; reflexivity|].
      right. exists m, e. repeat split; auto; lia. }
  destruct Htotal as [->|(m & e & -> & D & E)]; [reflexivity|].
  destruct (mul_positive_normal m 7205759403792794 e (-56) D D0 ltac:(lia))
    as [->|(m' & e' & -> & _ & _)]; reflexivity.
Qed.

(** C10. On every scenario that passes [validateScenario] with no error
    (its developer count and annual cost being well-formed doubles),
    estimatedCurrentProfit = totalDeveloperCost × 0.10 is strictly positive:
    the developer count is at least 1 and the annual cost at least 50,000,
    so neither product can round to zero.  The fallback 0 of
    profitBoostPercentage is therefore never taken when
    [calculateTechCompany] returns, and profitBoostPercentage is
    (profitImpact / estimatedCurrentProfit) × 100. *)
Theorem C10_profit_boost_guard (s : Scenario) :
  Num.wf (developerCount s) = true ->
  Num.wf (annualCostPerDeveloper s) = true ->
  validateScenario s = [] ->
  estimatedCurrentProfit s
  = (developerCount s * annualCostPerDeveloper s) * Num.ofDec 10 2
  /\ (estimatedCurrentProfit s >? Num.ofZ 0) = true
  /\ (forall r : CalculationResults,
        calculateTechCompany s = Return r ->
        exists profit : number,
          profitImpact r = Some profit
          /\ profitBoostPercentage r
             = Some ((profit / estimatedCurrentProfit s) * Num.ofZ 100)).
Proof.
  intros Wd Wa Hv.
  pose proof (estimatedCurrentProfit_positive s Wd Wa Hv) as Hpos.
  split; [reflexivity|]. split; [exact Hpos|].
  intros r Hr. destruct (tech_return_inv s r Hr) as (_ & Ht).
  destruct (tech_of_valid s Hv Ht)
    as (basic & r' & _ & Hr' & _ & _ & _ & _ & _ & _ & Hg & Hp & Hb & _).
  assert (r' = r) by congruence. subst r'.
  rewrite Hpos in Hb. rewrite Hp, Hg in Hb. cbn [toNumber] in Hb.
  eexists. split; [rewrite Hp; exact Hg|exact Hb].
Qed.

End Properties.

(** * The statements at concrete scenarios *)

Lemma C1_traditional_pipeline_witness :
  businessType bankExample = traditional
  /\ @validateScenario sampleFormat bankExample = []
  /\ exists r : CalculationResults,
       @calculateTraditionalBusiness sampleFormat bankExample = Return r
       /\ totalDeveloperCost r = Num.ofZ 130000000
       /\ costAvoidance r = Num.ofZ 19500000
       /\ roiMultiple r = Num.ofDec 975 2
       /\ roiPercentage r = Num.ofZ 875
       /\ map step (calculationSteps r) = [1; 2; 3]
       /\ map result (calculationSteps r)
          = [Num.ofZ 130000000; Num.ofZ 19500000; Num.ofDec 975 2].
Proof.
  split; [reflexivity|]. split; [vm_compute; reflexivity|].
  destruct (@C1_traditional_pipeline sampleFormat bankExample)
    as (r & Hr & H1 & H2 & H3 & H4 & _ & H5 & H6);
    [reflexivity | vm_compute; reflexivity |].
  exists r. rewrite H6, H4, H3, H2, H1.
  split; [exact Hr|].
  repeat match goal with |- _ /\ _ => split end;
    try exact H5; vm_compute; reflexivity.
Defined.

Lemma C3_validation_preamble_witness :
  @validateScenario sampleFormat invalidExample <> []
  /\ map fst (@validateScenario sampleFormat invalidExample)
     = ["developerCount"; "solutionCost"; "general"]
  /\ @calculateTraditionalBusiness sampleFormat invalidExample
     = Throw "Validation failed: Developer count must be at least #, Solution cost ($#) seems high relative to total developer cost ($#). Consider if this investment is realistic., High solution cost for a small team. Consider if this investment makes sense for # developers."
  /\ @calculateTechCompany sampleFormat invalidExample
     = Throw "Validation failed: Developer count must be at least #, Solution cost ($#) seems high relative to total developer cost ($#). Consider if this investment is realistic., High solution cost for a small team. Consider if this investment makes sense for # developers."
  /\ @validateScenario sampleFormat bankExample = []
  /\ (exists r, @calculateTraditionalBusiness sampleFormat bankExample = Return r).
Proof.
  assert (Hne : @validateScenario sampleFormat invalidExample <> [])
    by (vm_compute; discriminate).
  assert (He : @validateScenario sampleFormat bankExample = [])
    by (vm_compute; reflexivity).
  destruct (@C3_validation_preamble sampleFormat invalidExample)
    as (Hgen & _ & _ & _ & _ & _).
  destruct (Hgen Hne) as (H1 & H2).
  split; [exact Hne|].
  split; [vm_compute; reflexivity|].
  split; [rewrite H1; vm_compute; reflexivity|].
  split; [rewrite H2; vm_compute; reflexivity|].
  split; [exact He|].
  destruct (@C3_validation_preamble sampleFormat bankExample)
    as (_ & _ & _ & _ & _ & Hempty).
  exact (proj1 (Hempty He)).
Defined.

Lemma C4_missing_revenue_witness :
  (revenuePercentage techWithoutRevenue = None
   /\ businessType techWithoutRevenue = tech
   /\ @commonFieldsValid sampleFormat techWithoutRevenue
   /\ @validateCrossFieldConstraints sampleFormat techWithoutRevenue = []
   /\ @calculateTechCompany sampleFormat techWithoutRevenue
      = Throw "Validation failed: Revenue percentage is required for tech companies")
  /\ (revenuePercentage traditionalWithoutRevenue = None
      /\ @validateScenario sampleFormat traditionalWithoutRevenue = []
      /\ @calculateTechCompany sampleFormat traditionalWithoutRevenue
         = Throw "Revenue percentage is required for tech company calculations").
Proof.
  assert (Hc : @commonFieldsValid sampleFormat techWithoutRevenue)
    by (repeat split; vm_compute; reflexivity).
  assert (Hx : @validateCrossFieldConstraints sampleFormat techWithoutRevenue = [])
    by (vm_compute; reflexivity).
  assert (Hv : @validateScenario sampleFormat traditionalWithoutRevenue = [])
    by (vm_compute; reflexivity).
  split.
  - split; [reflexivity|]. split; [reflexivity|]. split; [exact Hc|].
    split; [exact Hx|].
    exact (proj2 (proj2 (proj1 (@C4_missing_revenue sampleFormat
                                   techWithoutRevenue eq_refl) eq_refl))
             Hc Hx).
  - split; [reflexivity|]. split; [exact Hv|].
    exact (proj2 (@C4_missing_revenue sampleFormat traditionalWithoutRevenue
                    eq_refl) Hv).
Defined.

Lemma C4_counterexample :
  businessType techWithoutRevenue = tech
  /\ revenuePercentage techWithoutRevenue = None
  /\ @commonFieldsValid sampleFormat techWithoutRevenue
  /\ @calculateTechCompany sampleFormat techWithoutRevenue
     = Throw "Validation failed: Revenue percentage is required for tech companies"
  /\ @calculateTechCompany sampleFormat techWithoutRevenue
     <> Throw "Revenue percentage is required for tech company calculations".
Proof.
  split; [reflexivity|]. split; [reflexivity|].
  split; [repeat split; vm_compute; reflexivity|].
  split; [vm_compute; reflexivity | vm_compute; discriminate].
Qed.

Lemma C6_inclusive_ranges_witness :
  Num.ltb (Num.ofZ 0) (Num.ofZ 1) = true
  /\ @validateDeveloperCount sampleFormat (JNum (Num.ofZ 0)) <> None
  /\ Num.gtb (Num.ofZ 50001) (Num.ofZ 50000) = true
  /\ @validateDeveloperCount sampleFormat (JNum (Num.ofZ 50001)) <> None
  /\ Num.ltb (Num.ofDec 9999999 8) (Num.ofDec 1 1) = true
  /\ @validateCtsSwImprovement sampleFormat (JNum (Num.ofDec 9999999 8)) <> None
  /\ Num.gtb (Num.ofDec 5000000001 8) (Num.ofZ 50) = true
  /\ @validateCtsSwImprovement sampleFormat (JNum (Num.ofDec 5000000001 8)) <> None
  /\ Num.gtb (Num.ofZ 150) (Num.ofZ 100) = true
  /\ @validateRevenuePercentage sampleFormat (JNum (Num.ofZ 150)) <> None.
Proof.
  pose proof (@C6_inclusive_ranges sampleFormat)
    as (Hd & _ & Hc & _ & Hr & _).
  destruct Hd as (_ & _ & Hd1 & Hd2).
  destruct Hc as (_ & _ & Hc1 & Hc2).
  destruct Hr as (_ & _ & _ & Hr2).
  split; [vm_compute; reflexivity|].
  split; [apply Hd1; vm_compute; reflexivity|].
  split; [vm_compute; reflexivity|].
  split; [apply Hd2; vm_compute; reflexivity|].
  split; [vm_compute; reflexivity|].
  split; [apply Hc1; vm_compute; reflexivity|].
  split; [vm_compute; reflexivity|].
  split; [apply Hc2; vm_compute; reflexivity|].
  split; [vm_compute; reflexivity|].
  apply Hr2; vm_compute; reflexivity.
Defined.

Lemma C7_tech_fields_witness :
  (exists r : CalculationResults,
     @calculateTraditionalBusiness sampleFormat bankExample = Return r
     /\ lacksTechFields r)
  /\ (exists r : CalculationResults,
        @calculateTechCompany sampleFormat techExample = Return r
        /\ hasTechFields r)
  /\ (exists r : CalculationResults,
        @calculateForBusinessType sampleFormat techExample = Return r
        /\ businessType techExample = tech
        /\ hasTechFields r).
Proof.
  split; [|split].
  - eexists. split; [vm_compute; reflexivity|].
    apply (proj1 (@C7_tech_fields sampleFormat bankExample _)).
    vm_compute; reflexivity.
  - eexists. split; [vm_compute; reflexivity|].
    apply (proj1 (proj2 (@C7_tech_fields sampleFormat techExample _))).
    vm_compute; reflexivity.
  - eexists. split; [vm_compute; reflexivity|]. split; [reflexivity|].
    apply (proj2 (proj2 (@C7_tech_fields sampleFormat techExample _)));
      [vm_compute; reflexivity | reflexivity].
Defined.

Lemma C7_counterexample :
  (businessType techExample = tech
   /\ exists r : CalculationResults,
        @calculateTraditionalBusiness sampleFormat techExample = Return r
        /\ lacksTechFields r)
  /\ (businessType traditionalWithRevenue = traditional
      /\ exists r : CalculationResults,
           @calculateTechCompany sampleFormat traditionalWithRevenue = Return r
           /\ hasTechFields r).
Proof.
  split; (split; [reflexivity|]); eexists;
    (split; [vm_compute; reflexivity|]);
    repeat split; vm_compute; discriminate.
Qed.

Lemma C9_counterexample :
  (businessType highRatioZeroRevenue = tech
   /\ revenuePercentage highRatioZeroRevenue = Some (Num.ofZ 0)
   /\ @commonFieldsValid sampleFormat highRatioZeroRevenue
   /\ @validateScenario sampleFormat highRatioZeroRevenue <> []
   /\ @calculateTechCompany sampleFormat highRatioZeroRevenue
      = Throw ("Validation failed: "
               ++ @highCostMessage sampleFormat highRatioZeroRevenue
                    (Num.ofZ 1000000))%string
   /\ @calculateTechCompany sampleFormat highRatioZeroRevenue
      <> Throw "Revenue percentage is required for tech company calculations")
  /\ (businessType fractionalZeroRevenue = tech
      /\ revenuePercentage fractionalZeroRevenue = Some (Num.ofZ 0)
      /\ inRange VALIDATION_RANGES.developerCount
           (developerCount fractionalZeroRevenue) = true
      /\ inRange VALIDATION_RANGES.annualCostPerDeveloper
           (annualCostPerDeveloper fractionalZeroRevenue) = true
      /\ inRange VALIDATION_RANGES.ctsSwImprovementPercent
           (ctsSwImprovementPercent fractionalZeroRevenue) = true
      /\ inRange VALIDATION_RANGES.solutionCost
           (solutionCost fractionalZeroRevenue) = true
      /\ @validateCrossFieldConstraints sampleFormat fractionalZeroRevenue = []
      /\ @validateScenario sampleFormat fractionalZeroRevenue
         = [("developerCount",
             "Developer count must be a whole number (no decimals)")]
      /\ @calculateTechCompany sampleFormat fractionalZeroRevenue
         = Throw "Validation failed: Developer count must be a whole number (no decimals)").
Proof.
  split.
  - split; [reflexivity|]. split; [reflexivity|].
    split; [repeat split; vm_compute; reflexivity|].
    split; [vm_compute; discriminate|].
    split; [vm_compute; reflexivity | vm_compute; discriminate].
  - repeat match goal with |- _ /\ _ => split end; vm_compute; reflexivity.
Qed.

Lemma C10_profit_boost_guard_witness :
  Num.wf (developerCount techExample) = true
  /\ Num.wf (annualCostPerDeveloper techExample) = true
  /\ @validateScenario sampleFormat techExample = []
  /\ Num.gtb (estimatedCurrentProfit techExample) (Num.ofZ 0) = true
  /\ exists r profit,
       @calculateTechCompany sampleFormat techExample = Return r
       /\ profitImpact r = Some profit
       /\ profitBoostPercentage r
          = Some (Num.mul (Num.div profit (estimatedCurrentProfit techExample))
                    (Num.ofZ 100)).
Proof.
  assert (Hv : @validateScenario sampleFormat techExample = [])
    by (vm_compute; reflexivity).
  destruct (@C10_profit_boost_guard sampleFormat techExample
              eq_refl eq_refl Hv) as (_ & Hpos & Hboost).
  split; [reflexivity|]. split; [reflexivity|]. split; [exact Hv|].
  split; [exact Hpos|].
  eexists.
  assert (Hr : @calculateTechCompany sampleFormat techExample = Return _)
    by (vm_compute; reflexivity).
  destruct (Hboost _ Hr) as (profit & Hp & Hb).
  exists profit. split; [exact Hr|]. split; [exact Hp | exact Hb].
Defined.

(** * Further properties of the validator, the calculator and their callers *)

(** ** Comparisons of doubles *)

Lemma SFcompare_antisym (x y : spec_float) :
  SFcompare y x = option_map CompOpp (SFcompare x y).
Proof.
  destruct x as [sx|sx| |sx mx ex], y as [sy|sy| |sy my ey];
    cbv beta iota delta [SFcompare option_map];
    try (destruct sx; try destruct sy; reflexivity);
    try (destruct sy; reflexivity); try reflexivity.
  destruct sx, sy; try reflexivity;
    rewrite (Z.compare_antisym ex ey);
    destruct (ex ?= ey); cbn [CompOpp]; try reflexivity;
    pose proof (Pos.compare_cont_antisym my mx Eq) as H; cbn [CompOpp] in H;
    rewrite <- H; destruct (Pos.compare_cont Eq my mx); reflexivity.
Qed.

Lemma SFcompare_none (x y : spec_float) :
  SFcompare x y = None -> Num.isNaN x = true \/ Num.isNaN y = true.
Proof.
  destruct x as [sx|sx| |sx mx ex], y as [sy|sy| |sy my ey];
    cbv beta iota delta [SFcompare]; intros H; try discriminate H; cbn; auto.
Qed.

(** [y <= x] holds exactly when [x < y] fails and neither is NaN. *)
Lemma leb_of_not_ltb (x y : number) :
  Num.leb y x
  = negb (Num.ltb x y) && negb (Num.isNaN x) && negb (Num.isNaN y).
Proof.
  unfold Num.leb, Num.ltb, SFleb, SFltb. rewrite (SFcompare_antisym x y).
  destruct (SFcompare x y) as [[| |]|] eqn:E; cbn [option_map CompOpp negb andb].
  - destruct x, y; try discriminate E; reflexivity.
  - destruct x, y; try discriminate E; reflexivity.
  - destruct x, y; try discriminate E; reflexivity.
  - destruct (SFcompare_none x y E) as [H|H]; rewrite H; cbn;
      auto using andb_false_r.
Qed.

Lemma in_range_spec (x lo hi : number) :
  Num.isNaN lo = false -> Num.isNaN hi = false ->
  Num.leb lo x && Num.leb x hi
  = negb (Num.isNaN x) && negb (Num.ltb x lo) && negb (Num.gtb x hi).
Proof.
  intros Hlo Hhi.
  rewrite (leb_of_not_ltb x lo), (leb_of_not_ltb hi x), Hlo, Hhi.
  unfold Num.gtb, Num.ltb.
  destruct (Num.isNaN x), (SFltb x lo), (SFltb hi x); reflexivity.
Qed.

(** A number that is [<= 0] is below every positive finite number. *)
Lemma nonpositive_below (x : number) (s : bool) (m : positive) (e : Z) :
  Num.leb x (S754_zero s) = true ->
  Num.ltb x (S754_finite false m e) = true.
Proof.
  unfold Num.leb, Num.ltb, SFleb, SFltb.
  destruct x as [sx|sx| |sx mx ex]; cbv beta iota delta [SFcompare];
    try destruct sx; intros H; try discriminate H; reflexivity.
Qed.

Section ValidatorProperties.

Context {fmt : NumberFormat}.

Local Open Scope num_scope.

(** ** Acceptance sets of the per-field validators *)

Ltac accept_cases :=
  repeat match goal with
         | |- context [if ?c then _ else _] => destruct c eqn:?
         end;
  cbn [isNull negb andb]; try reflexivity; try discriminate.

Lemma cost_like_accepts (x lo hi : number) (m : positive) (e : Z) :
  lo = S754_finite false m e -> Num.isNaN hi = false ->
  (if Num.isNaN x then false
   else if x <=? Num.ofZ 0 then false
   else if x <? lo then false
   else if x >? hi then false else true)
  = (lo <=? x) && (x <=? hi).
Proof.
  intros Hlo Hhi. rewrite in_range_spec by (subst lo; auto).
  destruct (Num.isNaN x); [reflexivity|].
  destruct (x <=? Num.ofZ 0) eqn:Hz.
  - change (Num.ofZ 0) with (S754_zero false) in Hz.
    rewrite Hlo. rewrite (nonpositive_below x false m e Hz). reflexivity.
  - destruct (x <? lo), (x >? hi); reflexivity.
Qed.

(** X1. What each validator lets through, as a test on the number: the
    configured range, bounds included, and for the developer count an
    integer in that range.  The separate "greater than zero" rule of the
    cost and improvement validators rejects nothing that the range would
    accept. *)
Theorem validators_accept_exactly_the_range (x : number) :
  isNull (validateDeveloperCount (JNum x))
  = Num.isInteger x
    && (min VALIDATION_RANGES.developerCount <=? x)
    && (x <=? max VALIDATION_RANGES.developerCount)
  /\ isNull (validateAnnualCostPerDeveloper (JNum x))
     = (min VALIDATION_RANGES.annualCostPerDeveloper <=? x)
       && (x <=? max VALIDATION_RANGES.annualCostPerDeveloper)
  /\ isNull (validateCtsSwImprovement (JNum x))
     = (min VALIDATION_RANGES.ctsSwImprovementPercent <=? x)
       && (x <=? max VALIDATION_RANGES.ctsSwImprovementPercent)
  /\ isNull (validateSolutionCost (JNum x))
     = (min VALIDATION_RANGES.solutionCost <=? x)
       && (x <=? max VALIDATION_RANGES.solutionCost)
  /\ isNull (validateRevenuePercentage (JNum x))
     = (min VALIDATION_RANGES.revenuePercentage <=? x)
       && (x <=? max VALIDATION_RANGES.revenuePercentage).
Proof.
  split; [|split; [|split; [|split]]].
  - rewrite <- andb_assoc, in_range_spec by reflexivity.
    unfold validateDeveloperCount.
    destruct (Num.isNaN x) eqn:Hn.
    + destruct x; try discriminate Hn. reflexivity.
    + destruct (Num.isInteger x); cbn [negb andb]; [|reflexivity].
      destruct (x <? min VALIDATION_RANGES.developerCount); [reflexivity|].
      destruct (x >? max VALIDATION_RANGES.developerCount); reflexivity.
  - rewrite <- (cost_like_accepts x _ _ 6871947673600000 (-37))
      by (vm_compute; reflexivity).
    unfold validateAnnualCostPerDeveloper. accept_cases.
  - rewrite <- (cost_like_accepts x _ _ 7205759403792794 (-56))
      by (vm_compute; reflexivity).
    unfold validateCtsSwImprovement. accept_cases.
  - rewrite <- (cost_like_accepts x _ _ 8796093022208000 (-43))
      by (vm_compute; reflexivity).
    unfold validateSolutionCost. accept_cases.
  - rewrite in_range_spec by reflexivity.
    unfold validateRevenuePercentage.
    destruct (Num.isNaN x); [reflexivity|].
    destruct (x <? min VALIDATION_RANGES.revenuePercentage); [reflexivity|].
    destruct (x >? max VALIDATION_RANGES.revenuePercentage); reflexivity.
Qed.

(** A number inside a row of [VALIDATION_RANGES] passes the validator of
    that row; the developer count must be an integer as well. *)
Lemma in_range_accepted (x : number) :
  (Num.isInteger x = true ->
   inRange VALIDATION_RANGES.developerCount x = true ->
   validateDeveloperCount (JNum x) = None)
  /\ (inRange VALIDATION_RANGES.annualCostPerDeveloper x = true ->
      validateAnnualCostPerDeveloper (JNum x) = None)
  /\ (inRange VALIDATION_RANGES.ctsSwImprovementPercent x = true ->
      validateCtsSwImprovement (JNum x) = None)
  /\ (inRange VALIDATION_RANGES.solutionCost x = true ->
      validateSolutionCost (JNum x) = None).
Proof.
  unfold inRange.
  split; [|split; [|split]].
  - intros Hi H. rewrite in_range_spec in H by reflexivity.
    unfold validateDeveloperCount. rewrite Hi.
    destruct (Num.isNaN x); [discriminate H|].
    destruct (x <? min VALIDATION_RANGES.developerCount); [discriminate H|].
    destruct (x >? max VALIDATION_RANGES.developerCount); [discriminate H|].
    reflexivity.
  - intros H.
    rewrite <- (cost_like_accepts x _ _ 6871947673600000 (-37)) in H
      by (vm_compute; reflexivity).
    unfold validateAnnualCostPerDeveloper.
    repeat match goal with
           | |- context [if ?c then _ else _] => destruct c eqn:?
           end; try discriminate H; reflexivity.
  - intros H.
    rewrite <- (cost_like_accepts x _ _ 7205759403792794 (-56)) in H
      by (vm_compute; reflexivity).
    unfold validateCtsSwImprovement.
    repeat match goal with
           | |- context [if ?c then _ else _] => destruct c eqn:?
           end; try discriminate H; reflexivity.
  - intros H.
    rewrite <- (cost_like_accepts x _ _ 8796093022208000 (-43)) in H
      by (vm_compute; reflexivity).
    unfold validateSolutionCost.
    repeat match goal with
           | |- context [if ?c then _ else _] => destruct c eqn:?
           end; try discriminate H; reflexivity.
Qed.

(** C9 (as the code has it).  For a tech scenario whose revenue percentage
    is exactly 0, whose developer count is a whole number, whose developer
    count, annual cost, improvement and solution cost each lie inside their
    range of [VALIDATION_RANGES], and on which no cross-field heuristic
    fires: 0 lies inside the revenue range and its validator reports
    nothing, [validateScenario] returns the empty mapping, and
    [calculateTechCompany] still throws the "required" error. *)
Theorem C9_zero_revenue (s : Scenario) :
  businessType s = tech ->
  revenuePercentage s = Some (Num.ofZ 0) ->
  Num.isInteger (developerCount s) = true ->
  inRange VALIDATION_RANGES.developerCount (developerCount s) = true ->
  inRange VALIDATION_RANGES.annualCostPerDeveloper
    (annualCostPerDeveloper s) = true ->
  inRange VALIDATION_RANGES.ctsSwImprovementPercent
    (ctsSwImprovementPercent s) = true ->
  inRange VALIDATION_RANGES.solutionCost (solutionCost s) = true ->
  validateCrossFieldConstraints s = [] ->
  inRange VALIDATION_RANGES.revenuePercentage (Num.ofZ 0) = true
  /\ validateRevenuePercentage (JNum (Num.ofZ 0)) = None
  /\ validateScenario s = []
  /\ calculateTechCompany s
     = Throw "Revenue percentage is required for tech company calculations".
Proof.
  intros Hb Hr Hi Hd Ha Hp Hs Hx.
  assert (Hc : commonFieldsValid s).
  { destruct (in_range_accepted (developerCount s)) as (H1 & _).
    destruct (in_range_accepted (annualCostPerDeveloper s)) as (_ & H2 & _).
    destruct (in_range_accepted (ctsSwImprovementPercent s))
      as (_ & _ & H3 & _).
    destruct (in_range_accepted (solutionCost s)) as (_ & _ & _ & H4).
    unfold commonFieldsValid. auto. }
  assert (Hv : validateScenario s = []).
  { unfold validateScenario. cbv zeta.
    rewrite (fieldErrors_of_valid s Hc), Hx, Hb, Hr. reflexivity. }
  split; [vm_compute; reflexivity|].
  split; [reflexivity|]. split; [exact Hv|].
  unfold calculateTechCompany, validateInputs. rewrite Hv, Hr. reflexivity.
Qed.

End ValidatorProperties.

Lemma C9_zero_revenue_witness :
  (businessType techZeroRevenue = tech
   /\ revenuePercentage techZeroRevenue = Some (Num.ofZ 0)
   /\ Num.isInteger (developerCount techZeroRevenue) = true
   /\ inRange VALIDATION_RANGES.developerCount
        (developerCount techZeroRevenue) = true
   /\ inRange VALIDATION_RANGES.annualCostPerDeveloper
        (annualCostPerDeveloper techZeroRevenue) = true
   /\ inRange VALIDATION_RANGES.ctsSwImprovementPercent
        (ctsSwImprovementPercent techZeroRevenue) = true
   /\ inRange VALIDATION_RANGES.solutionCost
        (solutionCost techZeroRevenue) = true
   /\ @validateCrossFieldConstraints sampleFormat techZeroRevenue = [])
  /\ @validateScenario sampleFormat techZeroRevenue = []
  /\ @calculateTechCompany sampleFormat techZeroRevenue
     = Throw "Revenue percentage is required for tech company calculations".
Proof.
  assert (Hi : Num.isInteger (developerCount techZeroRevenue) = true)
    by (vm_compute; reflexivity).
  assert (Hd : inRange VALIDATION_RANGES.developerCount
                 (developerCount techZeroRevenue) = true)
    by (vm_compute; reflexivity).
  assert (Ha : inRange VALIDATION_RANGES.annualCostPerDeveloper
                 (annualCostPerDeveloper techZeroRevenue) = true)
    by (vm_compute; reflexivity).
  assert (Hp : inRange VALIDATION_RANGES.ctsSwImprovementPercent
                 (ctsSwImprovementPercent techZeroRevenue) = true)
    by (vm_compute; reflexivity).
  assert (Hs : inRange VALIDATION_RANGES.solutionCost
                 (solutionCost techZeroRevenue) = true)
    by (vm_compute; reflexivity).
  assert (Hx : @validateCrossFieldConstraints sampleFormat techZeroRevenue = [])
    by (vm_compute; reflexivity).
  split.
  - repeat match goal with |- _ /\ _ => split end;
      first [exact Hi | exact Hd | exact Ha | exact Hp | exact Hs | exact Hx
            | reflexivity].
  - exact (proj2 (proj2 (@C9_zero_revenue sampleFormat techZeroRevenue
                           eq_refl eq_refl Hi Hd Ha Hp Hs Hx))).
Defined.

(** ** The mapping returned by [validateScenario] *)

Lemma keys_setKey_in (k v x : string) (o : ValidationErrors) :
  In x (objectKeys (setKey k v o)) <-> x = k \/ In x (objectKeys o).
Proof.
  unfold objectKeys. induction o as [|[k' v'] rest IH]; cbn [setKey map In fst].
  - intuition.
  - destruct (String.eqb k' k) eqn:E; cbn [map In fst].
    + apply String.eqb_eq in E. subst k'. intuition.
    + rewrite IH. intuition.
Qed.

Lemma NoDup_setKey (k v : string) (o : ValidationErrors) :
  NoDup (objectKeys o) -> NoDup (objectKeys (setKey k v o)).
Proof.
  unfold objectKeys. induction o as [|[k' v'] rest IH]; cbn [setKey map fst].
  - intros _. constructor; [intros []|constructor].
  - intros H. inversion H as [|? ? Hnot Hrest]; subst.
    destruct (String.eqb k' k) eqn:E; cbn [map fst].
    + constructor; assumption.
    + constructor; [|auto].
      intros Hin. apply (keys_setKey_in k v k' rest) in Hin.
      destruct Hin as [->|Hin]; [|contradiction].
      rewrite String.eqb_refl in E. discriminate.
Qed.

Lemma Forall_setKey (P : string * string -> Prop) (k v : string)
    (o : ValidationErrors) :
  (forall k', P (k', v)) -> Forall P o -> Forall P (setKey k v o).
Proof.
  intros Hv. induction o as [|[k' v'] rest IH]; cbn [setKey]; intros H.
  - constructor; auto.
  - inversion H; subst. destruct (String.eqb k' k); constructor; auto.
Qed.

Lemma wellFormed_setKey (k v : string) (o : ValidationErrors) :
  In k validationKeys -> v <> "" ->
  wellFormedErrors o -> wellFormedErrors (setKey k v o).
Proof.
  intros Hk Hv [Hn Hf]. split; [now apply NoDup_setKey|].
  induction o as [|[k' v'] rest IH]; cbn [setKey].
  - constructor; [split; assumption|constructor].
  - inversion Hf as [|? ? Hhead Hrest]; subst.
    inversion Hn; subst.
    destruct (String.eqb k' k) eqn:E.
    + constructor; [|assumption]. split; [exact (proj1 Hhead)|exact Hv].
    + constructor; [assumption|]. apply IH; assumption.
Qed.

Lemma wellFormed_setIfTruthy (k : string) (e : option string)
    (o : ValidationErrors) :
  In k validationKeys ->
  wellFormedErrors o -> wellFormedErrors (setIfTruthy k e o).
Proof.
  intros Hk Ho. unfold setIfTruthy.
  destruct e as [[|c m]|]; cbn [truthyStr]; auto.
  apply wellFormed_setKey; auto. discriminate.
Qed.

Lemma wellFormed_objectAssign (target source : ValidationErrors) :
  Forall (fun kv => In (fst kv) validationKeys /\ snd kv <> "") source ->
  wellFormedErrors target -> wellFormedErrors (objectAssign target source).
Proof.
  unfold objectAssign. revert target.
  induction source as [|[k v] rest IH]; cbn [fold_left fst snd]; intros target Hs Ht.
  - exact Ht.
  - inversion Hs as [|? ? [Hk Hv] Hrest]; subst. cbn [fst snd] in Hk, Hv.
    apply IH; [assumption|]. apply wellFormed_setKey; assumption.
Qed.

Lemma append_nonempty_r (a b : string) : b <> "" -> (a ++ b)%string <> "".
Proof.
  destruct a; cbn [String.append]; [auto|discriminate].
Qed.

Section MappingProperties.

Context {fmt : NumberFormat}.

Local Open Scope num_scope.

Ltac verdict_cases :=
  repeat match goal with
         | |- context [if ?c then _ else _] => destruct c
         end;
  cbn; auto.

Lemma validateCtsSwImprovement_truthy (v : jsval) :
  validateCtsSwImprovement v = None
  \/ truthyStr (validateCtsSwImprovement v) = true.
Proof. unfold validateCtsSwImprovement. destruct v; verdict_cases. Qed.

Lemma validateSolutionCost_truthy (v : jsval) :
  validateSolutionCost v = None
  \/ truthyStr (validateSolutionCost v) = true.
Proof. unfold validateSolutionCost. destruct v; verdict_cases. Qed.

Lemma validateRevenuePercentage_truthy (v : jsval) :
  validateRevenuePercentage v = None
  \/ truthyStr (validateRevenuePercentage v) = true.
Proof. unfold validateRevenuePercentage. destruct v; verdict_cases. Qed.

Lemma getKey_setIfTruthy_same (k : string) (e : option string)
    (o : ValidationErrors) :
  e = None \/ truthyStr e = true ->
  getKey k (setIfTruthy k e o)
  = match e with Some _ => e | None => getKey k o end.
Proof.
  intros [->|H]; [reflexivity|].
  unfold setIfTruthy. destruct e as [m|]; [|discriminate H].
  rewrite H. apply getKey_setKey_same.
Qed.

Lemma validateField_truthy (f : FieldName) (v : jsval)
    (b : option BusinessType) :
  validateField f v b = None \/ truthyStr (validateField f v b) = true.
Proof.
  destruct f; cbn [validateField];
    auto using validateDeveloperCount_truthy,
      validateAnnualCostPerDeveloper_truthy, validateCtsSwImprovement_truthy,
      validateSolutionCost_truthy.
  destruct b as [[|]|]; auto using validateRevenuePercentage_truthy.
Qed.

Lemma crossField_wellFormed (s : Scenario) :
  Forall (fun kv => In (fst kv) validationKeys /\ snd kv <> "")
    (validateCrossFieldConstraints s).
Proof.
  assert (Hh : forall t, highCostMessage s t <> "") by (intros t; discriminate).
  assert (Hu : unrealisticMessage s <> "")
    by (unfold unrealisticMessage; apply append_nonempty_r; discriminate).
  assert (Hs : smallTeamMessage s <> "") by discriminate.
  unfold validateCrossFieldConstraints. cbv zeta.
  destruct (_ >? Num.ofDec 5 1); destruct (_ && _); destruct (_ && _);
    cbn [setKey String.eqb Ascii.eqb Bool.eqb];
    repeat (apply Forall_cons;
            [split; [cbn [fst validationKeys In]; auto 10
                    | cbn [snd]; auto]|]);
    apply Forall_nil.
Qed.

Lemma fieldErrors_wellFormed (s : Scenario) : wellFormedErrors (fieldErrors s).
Proof.
  assert (H0 : wellFormedErrors []) by (split; constructor).
  unfold fieldErrors. cbv zeta.
  destruct (businessType s);
    repeat (apply wellFormed_setIfTruthy;
            [cbn [validationKeys In]; auto 10|]);
    exact H0.
Qed.

(** X3. Whatever the scenario, the mapping returned by [validateScenario] has
    pairwise distinct keys, every key is one of developerCount,
    annualCostPerDeveloper, ctsSwImprovementPercent, solutionCost,
    revenuePercentage and general, and no message is the empty string. *)
Theorem validateScenario_well_formed (s : Scenario) :
  NoDup (objectKeys (validateScenario s))
  /\ Forall (fun kv => In (fst kv) validationKeys /\ snd kv <> "")
       (validateScenario s).
Proof.
  apply wellFormed_objectAssign;
    [apply crossField_wellFormed | apply fieldErrors_wellFormed].
Qed.

(** X2. The cross-field pass leaves the keys developerCount,
    annualCostPerDeveloper and revenuePercentage alone: in the mapping
    returned by [validateScenario] each of them holds exactly the verdict of
    its per-field validator, and revenuePercentage is absent for a
    traditional scenario whatever its value.  Before the cross-field pass
    the same is true of solutionCost and ctsSwImprovementPercent. *)
Theorem validateScenario_field_verdicts (s : Scenario) :
  getKey "developerCount" (validateScenario s)
  = validateDeveloperCount (JNum (developerCount s))
  /\ getKey "annualCostPerDeveloper" (validateScenario s)
     = validateAnnualCostPerDeveloper (JNum (annualCostPerDeveloper s))
  /\ getKey "revenuePercentage" (validateScenario s)
     = match businessType s with
       | tech => validateRevenuePercentage (ofOption (revenuePercentage s))
       | traditional => None
       end
  /\ getKey "ctsSwImprovementPercent" (fieldErrors s)
     = validateCtsSwImprovement (JNum (ctsSwImprovementPercent s))
  /\ getKey "solutionCost" (fieldErrors s)
     = validateSolutionCost (JNum (solutionCost s)).
Proof.
  unfold validateScenario. cbv zeta.
  rewrite !getKey_cross_other by discriminate.
  unfold fieldErrors. cbv zeta.
  pose proof (validateDeveloperCount_truthy (JNum (developerCount s))) as Hd.
  pose proof (validateAnnualCostPerDeveloper_truthy
                (JNum (annualCostPerDeveloper s))) as Ha.
  pose proof (validateCtsSwImprovement_truthy
                (JNum (ctsSwImprovementPercent s))) as Hc.
  pose proof (validateSolutionCost_truthy (JNum (solutionCost s))) as Hs.
  pose proof (validateRevenuePercentage_truthy
                (ofOption (revenuePercentage s))) as Hr.
  destruct (businessType s);
    repeat match goal with |- _ /\ _ => split end;
    rewrite ?getKey_setIfTruthy_other by discriminate;
    rewrite ?getKey_setIfTruthy_same by assumption;
    rewrite ?getKey_setIfTruthy_other by discriminate;
    rewrite ?getKey_setIfTruthy_same by assumption;
    cbn [getKey];
    repeat match goal with
           | |- match ?e with Some _ => ?e | None => None end = ?e =>
               destruct e; reflexivity
           end;
    try reflexivity.
Qed.

End MappingProperties.

(** ** When the entry points return *)

Section CalculatorProperties.

Context {fmt : NumberFormat}.

Local Open Scope num_scope.

(** X4. A scenario passes [validateScenario] with no error exactly when the
    four common per-field validators return null, the revenue validator
    returns null if the business type is tech, and none of the three
    cross-field heuristics fires. *)
Theorem validateScenario_empty_iff (s : Scenario) :
  validateScenario s = []
  <-> commonFieldsValid s
      /\ (businessType s = tech ->
          validateRevenuePercentage (ofOption (revenuePercentage s)) = None)
      /\ validateCrossFieldConstraints s = [].
Proof.
  split.
  - intros Hv.
    destruct (validateScenario_field_verdicts s) as (Hd & Ha & Hr & Hc & Hs).
    rewrite Hv in Hd, Ha, Hr. cbn [getKey] in Hd, Ha, Hr.
    apply objectAssign_nil_inv in Hv. destruct Hv as [Hf Hx].
    rewrite Hf in Hc, Hs. cbn [getKey] in Hc, Hs.
    split; [repeat split; congruence|].
    split; [|exact Hx].
    intros Hb. rewrite Hb in Hr. congruence.
  - intros (Hc & Hr & Hx). unfold validateScenario. cbv zeta.
    rewrite (fieldErrors_of_valid s Hc), Hx.
    destruct (businessType s); [reflexivity|].
    rewrite Hr by reflexivity. reflexivity.
Qed.

(** X5. [calculateTraditionalBusiness] returns a result exactly when
    [validateScenario] reports nothing; [calculateTechCompany] returns one
    exactly when, in addition, [revenuePercentage] is truthy (neither
    undefined nor NaN nor zero).  In every other case they throw. *)
Theorem entry_points_return_iff (s : Scenario) :
  ((exists r, calculateTraditionalBusiness s = Return r)
   <-> validateScenario s = [])
  /\ ((exists r, calculateTechCompany s = Return r)
      <-> validateScenario s = [] /\ truthyOpt (revenuePercentage s) = true).
Proof.
  split; split.
  - intros (r & Hr). exact (traditional_return_inv s r Hr).
  - intros Hv. destruct (traditional_of_valid s Hv) as (r & Hr & _). eauto.
  - intros (r & Hr). exact (tech_return_inv s r Hr).
  - intros (Hv & Ht).
    destruct (tech_of_valid s Hv Ht) as (basic & r & _ & Hr & _). eauto.
Qed.

(** X6. Whenever [calculateTechCompany] returns, [calculateTraditionalBusiness]
    returns on the same scenario, and the tech result repeats it: same
    scenarioId, totalDeveloperCost, costAvoidance, roiMultiple,
    roiPercentage and supportingMetrics, the same first three steps, then
    three more steps whose results are the three tech fields;
    profitImpact always equals grossMarginImprovement. *)
Theorem tech_result_extends_traditional (s : Scenario)
    (r : CalculationResults) :
  calculateTechCompany s = Return r ->
  exists basic : CalculationResults,
    calculateTraditionalBusiness s = Return basic
    /\ scenarioId r = scenarioId basic
    /\ totalDeveloperCost r = totalDeveloperCost basic
    /\ costAvoidance r = costAvoidance basic
    /\ roiMultiple r = roiMultiple basic
    /\ roiPercentage r = roiPercentage basic
    /\ supportingMetrics r = supportingMetrics basic
    /\ firstn 3 (calculationSteps r) = calculationSteps basic
    /\ List.length (calculationSteps r) = 6%nat
    /\ map result (skipn 3 (calculationSteps r))
       = [toNumber (grossMarginImprovement r); toNumber (profitImpact r);
          toNumber (profitBoostPercentage r)]
    /\ profitImpact r = grossMarginImprovement r.
Proof.
  intros Hr. destruct (tech_return_inv s r Hr) as (Hv & Ht).
  destruct (tech_of_valid s Hv Ht)
    as (basic & r' & Hb & Hr' & H1 & H2 & H3 & H4 & H5 & H6 & _ & Hp & _
        & Hsteps & Hres & Hfirst).
  assert (r' = r) by congruence. subst r'.
  exists basic.
  assert (Hlen : List.length (calculationSteps r) = 6%nat)
    by (rewrite <- (length_map step), Hsteps; reflexivity).
  repeat match goal with |- _ /\ _ => split end; auto.
  rewrite <- (firstn_skipn 3 (calculationSteps r)) in Hres.
  rewrite map_app in Hres.
  destruct (calculationSteps r) as [|a [|b [|c l]]]; try discriminate Hlen.
  cbn [firstn skipn map app] in Hres |- *.
  congruence.
Qed.

(** X7. Among the tech scenarios that pass validation, [calculateTechCompany]
    rejects exactly those whose revenue percentage is zero (+0 or -0), with
    its "required" message; for every other one it returns. *)
Theorem validated_tech_fails_only_on_zero (s : Scenario) :
  businessType s = tech ->
  validateScenario s = [] ->
  (exists r, calculateTechCompany s = Return r
             /\ exists v, revenuePercentage s = Some v /\ Num.truthy v = true)
  \/ (calculateTechCompany s
      = Throw "Revenue percentage is required for tech company calculations"
      /\ exists b, revenuePercentage s = Some (S754_zero b)).
Proof.
  intros Hb Hv.
  pose proof (proj1 (validateScenario_empty_iff s) Hv) as (_ & Hr & _).
  specialize (Hr Hb).
  destruct (revenuePercentage s) as [v|] eqn:Hrev;
    [|cbn in Hr; discriminate Hr].
  cbn [ofOption] in Hr. unfold validateRevenuePercentage in Hr.
  destruct (Num.isNaN v) eqn:Hn; [discriminate Hr|].
  destruct (Num.truthy v) eqn:Ht.
  - left.
    destruct (tech_of_valid s Hv) as (basic & r & _ & Hret & _);
      [rewrite Hrev; exact Ht|].
    exists r. split; [exact Hret|]. exists v. auto.
  - right. split.
    + unfold calculateTechCompany, validateInputs. rewrite Hv, Hrev.
      cbn [objectKeys map List.length Nat.ltb Nat.leb truthyOpt].
      rewrite Ht. reflexivity.
    + destruct v as [b|b| |b m e]; try discriminate Ht; try discriminate Hn.
      exists b. reflexivity.
Qed.

(** X8. For a scenario of business type traditional, [revenuePercentage] is
    never read: replacing it by any value, or removing it, changes neither
    the mapping returned by [validateScenario] nor the outcome of
    [calculateTraditionalBusiness]. *)
Theorem traditional_ignores_revenue (s : Scenario) (revenue : option number) :
  businessType s = traditional ->
  validateScenario (withRevenue s revenue) = validateScenario s
  /\ calculateTraditionalBusiness (withRevenue s revenue)
     = calculateTraditionalBusiness s.
Proof.
  intros Hb.
  assert (Hv : validateScenario (withRevenue s revenue) = validateScenario s).
  { unfold validateScenario, fieldErrors, validateCrossFieldConstraints,
      highCostMessage, unrealisticMessage, smallTeamMessage.
    cbn [withRevenue businessType developerCount annualCostPerDeveloper
         ctsSwImprovementPercent solutionCost revenuePercentage].
    rewrite Hb. reflexivity. }
  split; [exact Hv|].
  unfold calculateTraditionalBusiness, validateInputs. rewrite Hv.
  reflexivity.
Qed.

End CalculatorProperties.

(** ** Rounding of positive mantissas *)

Lemma shr_m_of_loc (m : Z) (l : location) : shr_m (shr_record_of_loc m l) = m.
Proof. destruct l as [|[| |]]; reflexivity. Qed.

Lemma digits2_pos_lower (p : positive) (k : Z) :
  2 ^ k <= Z.pos p -> k < Z.pos (digits2_pos p).
Proof.
  intros H. pose proof (digits2_pos_bounds p) as [_ Hhi].
  destruct (Z.le_gt_cases (Z.pos (digits2_pos p)) k) as [Hle|Hgt]; [|lia].
  assert (2 ^ Z.pos (digits2_pos p) <= 2 ^ k)
    by (apply Z.pow_le_mono_r; lia).
  lia.
Qed.

Lemma shr_fexp_normalises (M : positive) (E : Z) (l : location) :
  53 <= Z.pos (digits2_pos M) ->
  -1074 <= Z.pos (digits2_pos M) + E - 53 ->
  2 ^ 52 <= shr_m (fst (shr_fexp Num.prec Num.emax (Z.pos M) E l)) < 2 ^ 53
  /\ snd (shr_fexp Num.prec Num.emax (Z.pos M) E l)
     = E + Z.pos (digits2_pos M) - 53.
Proof.
  intros Hd HE. unfold shr_fexp, fexp, emin, Num.prec, Num.emax.
  cbn [Zdigits2].
  pose proof (digits2_pos_bounds M) as HB.
  set (d := Z.pos (digits2_pos M)) in *.
  replace (Z.max (d + E - 53) (3 - 1024 - 53) - E) with (d - 53) by lia.
  destruct (d - 53) as [|p|p] eqn:Hn; [| |lia].
  - cbn [shr fst snd]. rewrite shr_m_of_loc.
    replace d with 53 in HB by lia.
    change (2 ^ (53 - 1)) with (2 ^ 52) in HB. lia.
  - unfold shr. cbn [fst snd].
    rewrite iter_shr_1_m by (rewrite shr_m_of_loc; lia).
    rewrite shr_m_of_loc.
    assert (Hd1 : d - 1 = Z.pos p + 52) by lia.
    assert (Hd2 : d = Z.pos p + 53) by lia.
    rewrite Hd1 in HB. rewrite Hd2 in HB.
    rewrite !Z.pow_add_r in HB by lia.
    assert (0 < 2 ^ Z.pos p) by (apply Z.pow_pos_nonneg; lia).
    split; [split|lia].
    + apply Z.div_le_lower_bound; lia.
    + apply Z.div_lt_upper_bound; lia.
Qed.

Lemma binary_round_aux_positive (M : positive) (E : Z) (l : location) :
  53 <= Z.pos (digits2_pos M) ->
  -1074 <= Z.pos (digits2_pos M) + E - 53 ->
  positiveFrom (E + Z.pos (digits2_pos M) - 53)
    (binary_round_aux Num.prec Num.emax false (Z.pos M) E l).
Proof.
  intros Hd HE. unfold binary_round_aux.
  destruct (shr_fexp_normalises M E l Hd HE) as (H1 & H2).
  destruct (shr_fexp Num.prec Num.emax (Z.pos M) E l) as [mrs1 e1].
  cbn [fst snd] in H1, H2.
  pose proof (round_nearest_even_bounds (shr_m mrs1) (loc_of_shr_record mrs1))
    as HR.
  set (m2 := round_nearest_even (shr_m mrs1) (loc_of_shr_record mrs1)) in *.
  destruct (shr_fexp_second m2 e1) as (q & Hq & Hdq & He); [lia|lia|].
  destruct (shr_fexp Num.prec Num.emax m2 e1 loc_Exact) as [mrs2 e2].
  cbn [fst snd] in Hq, He.
  rewrite Hq. unfold positiveFrom.
  destruct (e2 <=? Num.emax - Num.prec); [right|left; reflexivity].
  exists q, e2. repeat split; auto; lia.
Qed.

Lemma shr_fexp_nonneg (m e : Z) (l : location) :
  0 <= m -> 0 <= shr_m (fst (shr_fexp Num.prec Num.emax m e l)).
Proof.
  intros Hm. unfold shr_fexp, shr.
  destruct (fexp Num.prec Num.emax (Zdigits2 m + e) - e) as [|p|p];
    cbn [fst]; rewrite ?iter_shr_1_m by (rewrite shr_m_of_loc; lia);
    rewrite shr_m_of_loc; [lia| |lia].
  apply Z.div_pos; [lia|]. apply Z.pow_pos_nonneg; lia.
Qed.

Lemma binary_round_aux_not_nan (s : bool) (m e : Z) (l : location) :
  0 <= m ->
  Num.isNaN (binary_round_aux Num.prec Num.emax s m e l) = false.
Proof.
  intros Hm. unfold binary_round_aux.
  pose proof (shr_fexp_nonneg m e l Hm) as H1.
  destruct (shr_fexp Num.prec Num.emax m e l) as [mrs1 e1]. cbn [fst] in H1.
  pose proof (round_nearest_even_bounds (shr_m mrs1) (loc_of_shr_record mrs1))
    as HR.
  set (m2 := round_nearest_even (shr_m mrs1) (loc_of_shr_record mrs1)) in *.
  pose proof (shr_fexp_nonneg m2 e1 loc_Exact ltac:(lia)) as H2.
  destruct (shr_fexp Num.prec Num.emax m2 e1 loc_Exact) as [mrs2 e2].
  cbn [fst] in H2.
  destruct (shr_m mrs2) as [|q|q]; [reflexivity| |lia].
  destruct (e2 <=? Num.emax - Num.prec); reflexivity.
Qed.

Lemma positiveFrom_weaken (k k' : Z) (x : number) :
  k' <= k -> positiveFrom k x -> positiveFrom k' x.
Proof.
  intros Hk [->|(m & e & -> & D & E)]; [left; reflexivity|].
  right. exists m, e. repeat split; auto; lia.
Qed.

Lemma positiveFrom_gt_zero (k : Z) (x : number) :
  positiveFrom k x -> Num.gtb x (Num.ofZ 0) = true.
Proof. intros [->|(m & e & -> & _)]; reflexivity. Qed.

Lemma mul_positiveFrom (k1 k2 : Z) (x y : number) :
  positiveFrom k1 x -> positiveFrom k2 y -> -1126 <= k1 + k2 ->
  positiveFrom (k1 + k2 + 52) (Num.mul x y).
Proof.
  intros [->|(m1 & e1 & -> & D1 & E1)] [->|(m2 & e2 & -> & D2 & E2)] Hk;
    try (left; reflexivity).
  destruct (mul_positive_normal m1 m2 e1 e2 D1 D2 ltac:(lia))
    as [->|(m & e & -> & D & E)]; [left; reflexivity|].
  right. exists m, e. repeat split; auto; lia.
Qed.

Lemma div_positiveFrom (k1 u : Z) (x : number) (m2 : positive) (e2 : Z) :
  positiveFrom k1 x -> Z.pos (digits2_pos m2) = 53 -> e2 <= u ->
  -1074 <= k1 - u - 53 ->
  positiveFrom (k1 - u - 53) (Num.div x (S754_finite false m2 e2)).
Proof.
  intros [->|(m1 & e1 & -> & D1 & E1)] D2 Hu Hk; [left; reflexivity|].
  unfold Num.div, SFdiv, SFdiv_core_binary. cbn [xorb Zdigits2].
  rewrite D1, D2. unfold fexp, emin, Num.prec, Num.emax.
  replace (Z.min (Z.max (53 + e1 - (53 + e2) - 53) (3 - 1024 - 53)) (e1 - e2))
    with (e1 - e2 - 53) by lia.
  replace (e1 - e2 - (e1 - e2 - 53)) with 53 by lia.
  cbv beta iota.
  pose proof (digits2_pos_bounds m1) as B1.
  pose proof (digits2_pos_bounds m2) as B2.
  rewrite D1 in B1. rewrite D2 in B2.
  change (2 ^ (53 - 1)) with (2 ^ 52) in B1, B2.
  rewrite Z.shiftl_mul_pow2 by lia.
  pose proof (Z.div_eucl_eq (Z.pos m1 * 2 ^ 53) (Z.pos m2) ltac:(lia)) as Heq.
  pose proof (Z.mod_pos_bound (Z.pos m1 * 2 ^ 53) (Z.pos m2) ltac:(lia)) as Hmod.
  unfold Z.modulo in Hmod.
  destruct (Z.div_eucl (Z.pos m1 * 2 ^ 53) (Z.pos m2)) as [q r].
  assert (Hq : 2 ^ 52 <= q) by nia.
  destruct q as [|Q|Q]; try lia.
  pose proof (digits2_pos_lower Q 52 Hq) as HdQ.
  apply (positiveFrom_weaken (e1 - e2 - 53 + Z.pos (digits2_pos Q) - 53));
    [lia|].
  apply binary_round_aux_positive; lia.
Qed.

Lemma binary_normalize_not_nan (m e : Z) (szero : bool) :
  Num.isNaN (binary_normalize Num.prec Num.emax m e szero) = false.
Proof.
  unfold binary_normalize, binary_round.
  destruct m as [|p|p]; [reflexivity| |];
    destruct (shl_align p e _) as [mz ez];
    apply binary_round_aux_not_nan; lia.
Qed.

Lemma sub_finite_not_nan (s1 s2 : bool) (m1 m2 : positive) (e1 e2 : Z) :
  Num.isNaN (Num.sub (S754_finite s1 m1 e1) (S754_finite s2 m2 e2)) = false.
Proof. unfold Num.sub, SFsub. apply binary_normalize_not_nan. Qed.

Lemma mul_finite_not_nan (x : number) (s : bool) (m : positive) (e : Z) :
  Num.isNaN x = false ->
  Num.isNaN (Num.mul x (S754_finite s m e)) = false.
Proof.
  destruct x as [sx|sx| |sx mx ex]; intros H; try discriminate H;
    try reflexivity.
  unfold Num.mul, SFmul. apply binary_round_aux_not_nan. lia.
Qed.

Lemma not_above_finite (m m0 : positive) (e e0 : Z) :
  Num.gtb (S754_finite false m e) (S754_finite false m0 e0) = false ->
  e <= e0.
Proof.
  unfold Num.gtb, SFltb. cbv beta iota delta [SFcompare].
  destruct (Z.compare_spec e0 e) as [H|H|H]; intros Hc;
    try discriminate Hc; lia.
Qed.

Section NumericProperties.

Context {fmt : NumberFormat}.

Local Open Scope num_scope.

Lemma improvement_positive (x : number) :
  Num.wf x = true ->
  validateCtsSwImprovement (JNum x) = None ->
  positiveFrom (-56) x.
Proof.
  intros Hwf H. unfold validateCtsSwImprovement in H.
  destruct (Num.isNaN x) eqn:Hnan; [discriminate|].
  destruct (x <=? Num.ofZ 0); [discriminate|].
  destruct (x <? min VALIDATION_RANGES.ctsSwImprovementPercent) eqn:Hlt;
    [discriminate|].
  clear H.
  replace (min VALIDATION_RANGES.ctsSwImprovementPercent)
    with (S754_finite false 7205759403792794 (-56)) in Hlt
    by (vm_compute; reflexivity).
  apply (not_below_positive x _ _ Hwf Hnan Hlt). lia.
Qed.

Lemma solutionCost_normal (x : number) :
  Num.wf x = true ->
  validateSolutionCost (JNum x) = None ->
  exists (m : positive) (e : Z),
    x = S754_finite false m e /\ Z.pos (digits2_pos m) = 53
    /\ -43 <= e <= -26.
Proof.
  intros Hwf H. unfold validateSolutionCost in H.
  destruct (Num.isNaN x) eqn:Hnan; [discriminate|].
  destruct (x <=? Num.ofZ 0); [discriminate|].
  destruct (x <? min VALIDATION_RANGES.solutionCost) eqn:Hlt; [discriminate|].
  destruct (x >? max VALIDATION_RANGES.solutionCost) eqn:Hgt; [discriminate|].
  clear H.
  replace (min VALIDATION_RANGES.solutionCost)
    with (S754_finite false 8796093022208000 (-43)) in Hlt
    by (vm_compute; reflexivity).
  replace (max VALIDATION_RANGES.solutionCost)
    with (S754_finite false 6710886400000000 (-26)) in Hgt
    by (vm_compute; reflexivity).
  destruct (not_below_positive x _ _ Hwf Hnan Hlt ltac:(lia))
    as [->|(m & e & -> & D & E)]; [discriminate Hgt|].
  exists m, e. repeat split; auto.
  exact (not_above_finite m _ e _ Hgt).
Qed.

(** X9. On a scenario that passes [validateScenario] with no error (its four
    common numeric fields being well-formed doubles), the total developer
    cost, the cost avoidance and the ROI multiple returned by
    [calculateTraditionalBusiness] are strictly positive numbers, and the
    ROI percentage is a number: no step of the pipeline divides by zero,
    rounds a product or quotient to zero, or produces NaN. *)
Theorem validated_results_are_positive (s : Scenario) :
  Num.wf (developerCount s) = true ->
  Num.wf (annualCostPerDeveloper s) = true ->
  Num.wf (ctsSwImprovementPercent s) = true ->
  Num.wf (solutionCost s) = true ->
  validateScenario s = [] ->
  exists r : CalculationResults,
    calculateTraditionalBusiness s = Return r
    /\ (totalDeveloperCost r >? Num.ofZ 0) = true
    /\ (costAvoidance r >? Num.ofZ 0) = true
    /\ (roiMultiple r >? Num.ofZ 0) = true
    /\ Num.isNaN (roiPercentage r) = false.
Proof.
  intros Wd Wa Wc Ws Hv.
  destruct (proj1 (validateScenario_empty_iff s) Hv)
    as ((Hd & Ha & Hc & Hs) & _ & _).
  destruct (traditional_of_valid s Hv)
    as (r & Hr & _ & H1 & H2 & H3 & H4 & _).
  exists r. split; [exact Hr|].
  assert (Pd : positiveFrom (-52) (developerCount s)).
  { destruct (developerCount_normal _ Wd Hd) as (m & e & -> & D & E).
    right. eauto. }
  assert (Pa : positiveFrom (-37) (annualCostPerDeveloper s))
    by exact (annualCost_normal _ Wa Ha).
  pose proof (improvement_positive _ Wc Hc) as Pc.
  destruct (solutionCost_normal _ Ws Hs) as (ms & es & Xs & Ds & Es).
  assert (Pt : positiveFrom (-37) (totalDeveloperCost r)).
  { rewrite H1. apply (mul_positiveFrom (-52) (-37)); auto; lia. }
  assert (Pp : positiveFrom (-63) (ctsSwImprovementPercent s / Num.ofZ 100)).
  { replace (Num.ofZ 100) with (S754_finite false 7036874417766400 (-46))
      by (vm_compute; reflexivity).
    apply (div_positiveFrom (-56) (-46)); auto; lia. }
  assert (Pc' : positiveFrom (-48) (costAvoidance r)).
  { rewrite H2. apply (mul_positiveFrom (-37) (-63)); auto; lia. }
  assert (Pr : positiveFrom (-75) (roiMultiple r)).
  { rewrite H3, Xs. apply (div_positiveFrom (-48) (-26)); auto; lia. }
  repeat match goal with |- _ /\ _ => split end;
    eauto using positiveFrom_gt_zero.
  rewrite H4.
  replace (Num.ofZ 100) with (S754_finite false 7036874417766400 (-46))
    by (vm_compute; reflexivity).
  apply mul_finite_not_nan.
  replace (Num.ofZ 1) with (S754_finite false 4503599627370496 (-52))
    by (vm_compute; reflexivity).
  destruct Pr as [->|(m & e & -> & _)]; [reflexivity|].
  apply sub_finite_not_nan.
Qed.

End NumericProperties.

(** ** Copies, merges and deletions of error objects *)

Lemma getKey_notin (k : string) (o : ValidationErrors) :
  ~ In k (objectKeys o) -> getKey k o = None.
Proof.
  unfold objectKeys. induction o as [|[k' v'] rest IH]; cbn [getKey map In fst].
  - reflexivity.
  - intros H. destruct (String.eqb k' k) eqn:E.
    + apply String.eqb_eq in E. exfalso. apply H. auto.
    + apply IH. intros Hin. apply H. auto.
Qed.

Lemma getKey_objectAssign (k : string) (target source : ValidationErrors) :
  NoDup (objectKeys source) ->
  getKey k (objectAssign target source)
  = match getKey k source with
    | Some v => Some v
    | None => getKey k target
    end.
Proof.
  unfold objectAssign. revert target.
  induction source as [|[k0 v0] rest IH]; intros target Hn;
    cbn [fold_left fst snd getKey].
  - reflexivity.
  - unfold objectKeys in Hn. cbn [map fst] in Hn.
    inversion Hn as [|? ? Hnot Hrest]; subst.
    rewrite (IH _ Hrest).
    destruct (String.eqb k0 k) eqn:E.
    + apply String.eqb_eq in E. subst k0.
      rewrite (getKey_notin k rest Hnot). apply getKey_setKey_same.
    + destruct (getKey k rest); [reflexivity|].
      apply getKey_setKey_other. intros ->.
      rewrite String.eqb_refl in E. discriminate.
Qed.

Lemma NoDup_objectAssign (target source : ValidationErrors) :
  NoDup (objectKeys target) -> NoDup (objectKeys (objectAssign target source)).
Proof.
  unfold objectAssign. revert target.
  induction source as [|[k v] rest IH]; intros target Hn; cbn [fold_left].
  - exact Hn.
  - apply IH. apply NoDup_setKey. exact Hn.
Qed.

Lemma NoDup_spread (a b : ValidationErrors) : NoDup (objectKeys (spread a b)).
Proof.
  unfold spread. apply NoDup_objectAssign, NoDup_objectAssign. constructor.
Qed.

Lemma getKey_spread (k : string) (a b : ValidationErrors) :
  NoDup (objectKeys a) -> NoDup (objectKeys b) ->
  getKey k (spread a b)
  = match getKey k b with Some v => Some v | None => getKey k a end.
Proof.
  intros Ha Hb. unfold spread.
  rewrite (getKey_objectAssign k _ b Hb), (getKey_objectAssign k [] a Ha).
  destruct (getKey k b); [reflexivity|]. destruct (getKey k a); reflexivity.
Qed.

Lemma getKey_deleteKey_same (k : string) (o : ValidationErrors) :
  getKey k (deleteKey k o) = None.
Proof.
  unfold deleteKey. induction o as [|[k' v'] rest IH]; cbn [filter fst getKey].
  - reflexivity.
  - destruct (String.eqb k' k) eqn:E; cbn [negb getKey]; [exact IH|].
    rewrite E. exact IH.
Qed.

Lemma getKey_deleteKey_other (k k' : string) (o : ValidationErrors) :
  k' <> k -> getKey k' (deleteKey k o) = getKey k' o.
Proof.
  intros Hne. unfold deleteKey.
  induction o as [|[k0 v0] rest IH]; cbn [filter fst getKey].
  - reflexivity.
  - destruct (String.eqb k0 k) eqn:E; cbn [negb getKey].
    + apply String.eqb_eq in E. subst k0.
      destruct (String.eqb k k') eqn:E'; [|exact IH].
      apply String.eqb_eq in E'. congruence.
    + rewrite IH. reflexivity.
Qed.

Lemma NoDup_deleteKey (k : string) (o : ValidationErrors) :
  NoDup (objectKeys o) -> NoDup (objectKeys (deleteKey k o)).
Proof.
  unfold deleteKey, objectKeys.
  induction o as [|[k0 v0] rest IH]; cbn [filter map fst]; intros Hn.
  - constructor.
  - inversion Hn as [|? ? Hnot Hrest]; subst.
    destruct (negb (String.eqb k0 k)); cbn [map fst]; auto.
    constructor; auto.
    intros Hin. apply Hnot. apply in_map_iff in Hin.
    destruct Hin as (kv & Hk & Hin). apply filter_In in Hin.
    apply in_map_iff. exists kv. tauto.
Qed.

(** X10. [mergeErrors] gives every key the message of the last object that has
    it, and no key that none of them has. *)
Theorem mergeErrors_last_wins (k : string)
    (errorObjects : list ValidationErrors) :
  Forall (fun o => NoDup (objectKeys o)) errorObjects ->
  getKey k (mergeErrors errorObjects) = lastBinding k errorObjects.
Proof.
  unfold mergeErrors, lastBinding.
  change (@None string) with (getKey k []) at 1.
  assert (H0 : NoDup (objectKeys [])) by constructor.
  revert H0. generalize (@nil (string * string)) as acc.
  induction errorObjects as [|o rest IH]; intros acc Hacc Hall;
    cbn [fold_left].
  - reflexivity.
  - inversion Hall as [|? ? Ho Hrest]; subst.
    rewrite (IH (spread acc o)); [|apply NoDup_spread|exact Hrest].
    rewrite (getKey_spread k acc o Hacc Ho). reflexivity.
Qed.

Section HookProperties.

Context {fmt : NumberFormat}.

Local Open Scope num_scope.

(** X11. After the hook's [validateField], the state holds under the field's
    key exactly what [validateField] returned for the value (nothing when
    it returned null, so an earlier error of that field is cleared), every
    other key is as before, and keys stay distinct. *)
Theorem hook_validateField_updates_one_key (f : FieldName) (v : jsval)
    (prev : ValidationErrors) :
  NoDup (objectKeys prev) ->
  getKey (fieldKey f) (hookValidateField f v prev) = validateField f v None
  /\ (forall k, k <> fieldKey f ->
       getKey k (hookValidateField f v prev) = getKey k prev)
  /\ NoDup (objectKeys (hookValidateField f v prev)).
Proof.
  intros Hn. unfold hookValidateField. cbv zeta.
  assert (Hcopy : forall k, getKey k (spread [] prev) = getKey k prev).
  { intros k. rewrite getKey_spread by (auto; constructor).
    destruct (getKey k prev); reflexivity. }
  destruct (validateField_truthy f v None) as [He|He]; rewrite He.
  - cbn [truthyStr]. split; [apply getKey_deleteKey_same|].
    split; [|apply NoDup_deleteKey, NoDup_spread].
    intros k Hk. rewrite getKey_deleteKey_other by auto. apply Hcopy.
  - destruct (validateField f v None) as [m|]; [|discriminate He].
    split; [apply getKey_setKey_same|].
    split; [|apply NoDup_setKey, NoDup_spread].
    intros k Hk. rewrite getKey_setKey_other by auto. apply Hcopy.
Qed.

(** X12. The hook calls [validateField] without a business type, so the revenue
    validator is never reached: after [validateField] on revenuePercentage
    the state has no revenuePercentage error, whatever the value (a missing
    one, NaN, 150) and whatever was recorded before. *)
Theorem hook_never_flags_revenue (v : jsval) (prev : ValidationErrors) :
  getKey "revenuePercentage" (hookValidateField F_revenuePercentage v prev)
  = None.
Proof.
  unfold hookValidateField. cbn [validateField truthyStr fieldKey].
  apply getKey_deleteKey_same.
Qed.

(** X13. The four ways a caller can ask whether a scenario is valid agree: the
    hook's [validateScenario] returns true, [hasErrors] is false,
    [getSummaryMessage] is the empty string and
    [calculateTraditionalBusiness] returns a result, each exactly when the
    mapping of [validateScenario] is empty. *)
Theorem validity_signals_agree (s : Scenario) :
  (snd (hookValidateScenario s) = true <-> validateScenario s = [])
  /\ (hasErrors (Some (validateScenario s)) = false
      <-> validateScenario s = [])
  /\ (hookHasErrors (fst (hookValidateScenario s)) = false
      <-> validateScenario s = [])
  /\ (getSummaryMessage (validateScenario s) = "" <-> validateScenario s = [])
  /\ ((exists r, calculateTraditionalBusiness s = Return r)
      <-> validateScenario s = []).
Proof.
  split; [|split; [|split; [|split]]].
  - unfold hookValidateScenario. cbn [snd]. unfold objectKeys.
    rewrite length_map. destruct (validateScenario s); cbn; split;
      congruence.
  - unfold hasErrors, objectKeys. rewrite length_map.
    destruct (validateScenario s); cbn; split; congruence.
  - unfold hookValidateScenario, hookHasErrors, objectKeys. cbn [fst].
    rewrite length_map. destruct (validateScenario s); cbn; split;
      congruence.
  - destruct (validateScenario_well_formed s) as [_ Hf].
    unfold getSummaryMessage, objectKeys, objectValues. rewrite length_map.
    destruct (validateScenario s) as [|[k m] [|kv rest]];
      cbn [List.length Nat.eqb map hd snd].
    + split; reflexivity.
    + inversion Hf as [|? ? [_ Hm] _]; subst. cbn [snd] in Hm.
      split; [intros E; contradiction|discriminate].
    + split; [|discriminate].
      intros E. exfalso. revert E. apply append_nonempty_r. discriminate.
  - apply entry_points_return_iff.
Qed.

Lemma comparisonResult_spec (s : Scenario) :
  scenarioId (comparisonResult s) = id s
  /\ (calculationSteps (comparisonResult s) = []
      <-> exists msg, calculateForBusinessType s = Throw msg)
  /\ (forall r, calculateForBusinessType s = Return r ->
      comparisonResult s = r
      /\ List.length (calculationSteps r)
         = match businessType s with tech => 6%nat | traditional => 3%nat end).
Proof.
  unfold comparisonResult, calculateForBusinessType.
  destruct (businessType s) eqn:Hb.
  - destruct (calculateTraditionalBusiness s) as [r|msg] eqn:Hr.
    + pose proof (traditional_return_inv s r Hr) as Hv.
      destruct (traditional_of_valid s Hv)
        as (r' & Hr' & Hid & _ & _ & _ & _ & Hsteps & _).
      assert (r' = r) by congruence. subst r'.
      assert (Hlen : List.length (calculationSteps r) = 3%nat)
        by (rewrite <- (length_map step), Hsteps; reflexivity).
      split; [exact Hid|]. split.
      * split; [intros E; rewrite E in Hlen; discriminate|].
        intros (m & Hm). discriminate.
      * intros r0 E. inversion E. subst r0. auto.
    + split; [reflexivity|]. split; [split; eauto|].
      intros r Hr'. discriminate.
  - destruct (calculateTechCompany s) as [r|msg] eqn:Hr.
    + destruct (tech_return_inv s r Hr) as (Hv & Ht).
      destruct (tech_of_valid s Hv Ht)
        as (basic & r' & Hbasic & Hr' & Hid & _ & _ & _ & _ & _ & _ & _ & _
            & Hsteps & _).
      assert (r' = r) by congruence. subst r'.
      destruct (traditional_of_valid s Hv) as (b' & Hb' & Hid' & _).
      assert (b' = basic) by congruence. subst b'.
      assert (Hlen : List.length (calculationSteps r) = 6%nat)
        by (rewrite <- (length_map step), Hsteps; reflexivity).
      split; [congruence|]. split.
      * split; [intros E; rewrite E in Hlen; discriminate|].
        intros (m & Hm). discriminate.
      * intros r0 E. inversion E. subst r0. auto.
    + split; [reflexivity|]. split; [split; eauto|].
      intros r Hr'. discriminate.
Qed.

(** X14. ScenarioComparison's [allResults].  A [results] prop with as many
    elements as there are scenarios is returned as it is, whatever it
    holds.  In every other case (no prop, or another length) the list is
    computed: it has one element per scenario, in order, carrying that
    scenario's id; an element's step list is empty exactly when the entry
    point chosen from the business type threw (the placeholder of the
    [catch] branch), and otherwise the element is the returned result, with
    3 steps for a traditional and 6 for a tech scenario. *)
Theorem comparison_results_by_scenario (scenarios : list Scenario)
    (results : option (list CalculationResults)) :
  (forall supplied,
     results = Some supplied ->
     List.length supplied = List.length scenarios ->
     allResults scenarios results = supplied)
  /\ ((forall supplied,
         results = Some supplied ->
         List.length supplied <> List.length scenarios) ->
      map scenarioId (allResults scenarios results) = map id scenarios
      /\ Forall2
           (fun s r =>
              scenarioId r = id s
              /\ (calculationSteps r = []
                  <-> exists msg, calculateForBusinessType s = Throw msg)
              /\ (forall r', calculateForBusinessType s = Return r' ->
                  r = r'
                  /\ List.length (calculationSteps r)
                     = match businessType s with
                       | tech => 6%nat
                       | traditional => 3%nat
                       end))
           scenarios (allResults scenarios results)).
Proof.
  split.
  - intros supplied -> Hlen. unfold allResults.
    rewrite (proj2 (Nat.eqb_eq _ _) Hlen). reflexivity.
  - intros Hother.
    assert (E : allResults scenarios results = map comparisonResult scenarios).
    { unfold allResults. destruct results as [supplied|]; [|reflexivity].
      destruct (Nat.eqb (List.length supplied) (List.length scenarios)) eqn:Hl;
        [|reflexivity].
      apply Nat.eqb_eq in Hl. destruct (Hother supplied eq_refl Hl). }
    rewrite E. clear E Hother. split.
    + induction scenarios as [|s rest IH]; [reflexivity|].
      cbn [map]. rewrite IH.
      rewrite (proj1 (comparisonResult_spec s)). reflexivity.
    + induction scenarios as [|s rest IH]; cbn [map]; constructor; [|exact IH].
      destruct (comparisonResult_spec s) as (H1 & H2 & H3).
      split; [exact H1|]. split; [exact H2|].
      intros r' Hr'. destruct (H3 r' Hr') as (H4 & H5).
      rewrite H4. auto.
Qed.

End HookProperties.

(** ** Scale detection of NumberFormatter *)

(** A number above a positive constant is above every positive constant
    with a smaller exponent. *)
Lemma gt_constant_mono (y : number) (m1 m2 : positive) (e1 e2 : Z) :
  e1 < e2 ->
  Num.gtb y (S754_finite false m2 e2) = true ->
  Num.gtb y (S754_finite false m1 e1) = true.
Proof.
  intros He. unfold Num.gtb, SFltb.
  destruct y as [s|s| |s m e]; cbv beta iota delta [SFcompare];
    try destruct s; intros H; try discriminate H; try reflexivity.
  destruct (Z.compare_spec e2 e) as [H2|H2|H2]; try discriminate H.
  - subst e. destruct (Z.compare_spec e1 e2); try reflexivity; lia.
  - destruct (Z.compare_spec e1 e); try reflexivity; lia.
Qed.

Lemma leb_constant (y c : number) :
  Num.isNaN c = false ->
  Num.leb y c = negb (Num.gtb y c) && negb (Num.isNaN y).
Proof.
  intros Hc. unfold Num.gtb. rewrite (leb_of_not_ltb c y), Hc.
  unfold Num.ltb. destruct (SFltb c y), (Num.isNaN y); reflexivity.
Qed.

Lemma gtb_not_nan (y c : number) : Num.gtb y c = true -> Num.isNaN y = false.
Proof.
  unfold Num.gtb, SFltb. destruct y, c; cbv beta iota delta [SFcompare];
    intros H; try discriminate H; reflexivity.
Qed.

(** X15. The warning of [getScaleWarningMessage] depends on two thresholds only:
    the enterprise message above 140,000,000 in absolute value, the
    "significant investment" message above 10,000,000, and nothing
    otherwise (in particular for NaN); the small and medium thresholds of
    [getScaleIndicator] never matter to it.  Likewise
    [isEnterpriseScale(x) && getScaleIndicator(x) === 'enterprise'] is the
    test |x| > 140,000,000, although [getScaleIndicator] alone returns
    enterprise for NaN too. *)
Theorem scale_warning_thresholds (x : number) :
  NumberFormatter.getScaleWarningMessage x
  = (if Num.gtb (NumberFormatter.abs x) NumberFormatter.SCALE_large_max
     then Some "These are enterprise-scale results. Consider reviewing your inputs or exploring smaller-scale scenarios for comparison."
     else if Num.gtb (NumberFormatter.abs x)
               NumberFormatter.ENTERPRISE_WARNING_THRESHOLD
     then Some "This result represents a significant investment. Please verify your inputs are realistic for your organization size."
     else None)
  /\ NumberFormatter.isEnterpriseScale x
     && match NumberFormatter.getScaleIndicator x with
        | NumberFormatter.enterprise => true
        | _ => false
        end
     = Num.gtb (NumberFormatter.abs x) NumberFormatter.SCALE_large_max
  /\ NumberFormatter.getScaleIndicator Num.NaN = NumberFormatter.enterprise
  /\ NumberFormatter.shouldShowScaleWarning Num.NaN = false.
Proof.
  assert (Hc1 : NumberFormatter.SCALE_small_max
                = S754_finite false 5368709120000000 (-31))
    by (vm_compute; reflexivity).
  assert (Hc2 : NumberFormatter.SCALE_medium_max
                = S754_finite false 8724152320000000 (-27))
    by (vm_compute; reflexivity).
  assert (Hc3 : NumberFormatter.SCALE_large_max
                = S754_finite false 4697620480000000 (-25))
    by (vm_compute; reflexivity).
  assert (Hc4 : NumberFormatter.ENTERPRISE_WARNING_THRESHOLD
                = S754_finite false 5368709120000000 (-29))
    by (vm_compute; reflexivity).
  unfold NumberFormatter.getScaleWarningMessage,
    NumberFormatter.isEnterpriseScale, NumberFormatter.shouldShowScaleWarning,
    NumberFormatter.getScaleIndicator.
  cbv zeta. rewrite Hc1, Hc2, Hc3, Hc4.
  set (y := NumberFormatter.abs x).
  rewrite !leb_constant by reflexivity.
  pose proof (gt_constant_mono y 5368709120000000 5368709120000000
                (-31) (-29) ltac:(lia)) as M12.
  pose proof (gt_constant_mono y 5368709120000000 4697620480000000
                (-29) (-25) ltac:(lia)) as M24.
  pose proof (gt_constant_mono y 8724152320000000 4697620480000000
                (-27) (-25) ltac:(lia)) as M34.
  pose proof (gtb_not_nan y (S754_finite false 5368709120000000 (-29))) as N2.
  destruct (Num.gtb y (S754_finite false 4697620480000000 (-25))) eqn:G4.
  - rewrite (M24 eq_refl) in *. rewrite (M34 eq_refl).
    rewrite (M12 eq_refl), (N2 eq_refl). cbn. auto.
  - destruct (Num.gtb y (S754_finite false 5368709120000000 (-29))) eqn:G2.
    + rewrite (M12 eq_refl), (N2 eq_refl). cbn [negb andb].
      destruct (Num.gtb y (S754_finite false 8724152320000000 (-27)));
        cbn; auto.
    + cbn [negb andb]. auto.
Qed.

(** ** The scenario list of useScenarioManager *)

Lemma saveUpdater_cons (sc s : Scenario) (rest : list Scenario) :
  saveUpdater sc (s :: rest)
  = if String.eqb (id s) (id sc) then sc :: rest
    else s :: saveUpdater sc rest.
Proof.
  unfold saveUpdater. cbn [findIndex].
  destruct (String.eqb (id s) (id sc)); [reflexivity|].
  destruct (findIndex (id sc) rest); reflexivity.
Qed.

(** X16. Saving a scenario replaces the first scenario with the same id in
    place, or appends it when there is none: afterwards looking up its id
    finds the saved scenario, every other id finds what it found before,
    the list grows by one only for a new id, and the ids keep their order. *)
Theorem saveUpdater_lookup (sc : Scenario) (prev : list Scenario) :
  (forall k,
     findScenario k (saveUpdater sc prev)
     = if String.eqb (id sc) k then Some sc else findScenario k prev)
  /\ List.length (saveUpdater sc prev)
     = match findScenario (id sc) prev with
       | Some _ => List.length prev
       | None => S (List.length prev)
       end
  /\ map id (saveUpdater sc prev)
     = match findScenario (id sc) prev with
       | Some _ => map id prev
       | None => (map id prev ++ [id sc])%list
       end.
Proof.
  induction prev as [|s rest (IH1 & IH2 & IH3)].
  - unfold saveUpdater, findScenario. cbn. repeat split.
  - rewrite saveUpdater_cons. unfold findScenario in *. cbn [find].
    destruct (String.eqb (id s) (id sc)) eqn:E.
    + apply String.eqb_eq in E. split; [|split].
      * intros k. cbn [find]. rewrite E.
        destruct (String.eqb (id sc) k); reflexivity.
      * reflexivity.
      * cbn [map]. congruence.
    + split; [|split].
      * intros k. cbn [find]. rewrite IH1.
        destruct (String.eqb (id s) k) eqn:Ek; [|reflexivity].
        apply String.eqb_eq in Ek. subst k.
        destruct (String.eqb (id sc) (id s)) eqn:E'; [|reflexivity].
        apply String.eqb_eq in E'. rewrite E', String.eqb_refl in E.
        discriminate.
      * cbn [List.length]. rewrite IH2.
        destruct (find _ rest); reflexivity.
      * cbn [map]. rewrite IH3. destruct (find _ rest); reflexivity.
Qed.

(** X17. Deleting by id removes every scenario with that id and nothing else;
    the list keeps its length exactly when the id was not there, which is
    how a missing scenario is told apart. *)
Theorem deleteUpdater_lookup (k : string) (prev : list Scenario) :
  (forall k',
     findScenario k' (deleteUpdater k prev)
     = if String.eqb k k' then None else findScenario k' prev)
  /\ (List.length (deleteUpdater k prev) = List.length prev
      <-> findScenario k prev = None)
  /\ (List.length (deleteUpdater k prev) <= List.length prev)%nat.
Proof.
  unfold findScenario, deleteUpdater.
  induction prev as [|s rest (IH1 & IH2 & IH3)].
  - cbn. repeat split; auto. intros k'. destruct (String.eqb k k'); reflexivity.
  - cbn [filter find List.length].
    destruct (String.eqb (id s) k) eqn:E; cbn [negb find List.length].
    + apply String.eqb_eq in E. split; [|split].
      * intros k'. rewrite IH1.
        destruct (String.eqb k k') eqn:Ek; [reflexivity|].
        rewrite E, Ek. reflexivity.
      * split; [lia|discriminate].
      * lia.
    + split; [|split].
      * intros k'. rewrite IH1.
        destruct (String.eqb (id s) k') eqn:Es; [|reflexivity].
        apply String.eqb_eq in Es. subst k'.
        destruct (String.eqb k (id s)) eqn:Ek; [|reflexivity].
        apply String.eqb_eq in Ek. rewrite Ek, String.eqb_refl in E.
        discriminate.
      * rewrite <- IH2. lia.
      * lia.
Qed.

(** X18. Saving a scenario under an id that is not in the list and deleting that
    id again gives the list back. *)
Theorem delete_undoes_fresh_save (sc : Scenario) (prev : list Scenario) :
  findScenario (id sc) prev = None ->
  deleteUpdater (id sc) (saveUpdater sc prev) = prev.
Proof.
  unfold findScenario, deleteUpdater.
  induction prev as [|s rest IH]; intros H.
  - unfold saveUpdater. cbn. rewrite String.eqb_refl. reflexivity.
  - cbn [find] in H. rewrite saveUpdater_cons.
    destruct (String.eqb (id s) (id sc)) eqn:E; [discriminate H|].
    cbn [filter]. rewrite E. cbn [negb]. rewrite IH by exact H. reflexivity.
Qed.

(** ** More on the heuristics and on the calculator's own check *)

Lemma gt_excludes_lt (x : number) (m1 m2 : positive) (e1 e2 : Z) :
  e1 < e2 ->
  Num.gtb x (S754_finite false m2 e2) = true ->
  Num.ltb x (S754_finite false m1 e1) = false.
Proof.
  intros He H. pose proof (gt_constant_mono x m1 m2 e1 e2 He H) as G.
  unfold Num.gtb, Num.ltb, SFltb in *.
  rewrite (SFcompare_antisym (S754_finite false m1 e1) x).
  destruct (SFcompare (S754_finite false m1 e1) x) as [[| |]|];
    try discriminate G; reflexivity.
Qed.

Section HeuristicProperties.

Context {fmt : NumberFormat}.

Local Open Scope num_scope.

(** X19. The two cost-ratio heuristics never fire together: a ratio above 0.5
    is not below 0.005, so [validateCrossFieldConstraints] never returns
    both the solutionCost and the ctsSwImprovementPercent key, and its
    mapping has at most two entries. *)
Theorem ratio_heuristics_exclusive (s : Scenario) :
  (getKey "solutionCost" (validateCrossFieldConstraints s) = None
   \/ getKey "ctsSwImprovementPercent" (validateCrossFieldConstraints s) = None)
  /\ (List.length (validateCrossFieldConstraints s) <= 2)%nat.
Proof.
  unfold validateCrossFieldConstraints. cbv zeta.
  set (ratio := solutionCost s / (developerCount s * annualCostPerDeveloper s)).
  replace (Num.ofDec 5 1) with (S754_finite false 4503599627370496 (-53))
    by (vm_compute; reflexivity).
  replace (Num.ofDec 5 3) with (S754_finite false 5764607523034235 (-60))
    by (vm_compute; reflexivity).
  destruct (ratio >? S754_finite false 4503599627370496 (-53)) eqn:G.
  - rewrite (gt_excludes_lt ratio 5764607523034235 4503599627370496
               (-60) (-53) ltac:(lia) G).
    cbn [andb]. destruct (_ && _); cbn; split; auto.
  - destruct (_ && _); destruct (_ && _); cbn; split; auto.
Qed.

(** X20. Through the callers' choice of entry point, the message "Revenue
    percentage is required for tech company calculations" is thrown for
    one kind of scenario only: a tech scenario that passes validation and
    whose revenue percentage is zero. *)
Theorem dispatch_revenue_message_iff (s : Scenario) :
  calculateForBusinessType s
  = Throw "Revenue percentage is required for tech company calculations"
  <-> businessType s = tech
      /\ validateScenario s = []
      /\ exists b, revenuePercentage s = Some (S754_zero b).
Proof.
  unfold calculateForBusinessType. split.
  - destruct (businessType s) eqn:Hb; intros H.
    + exfalso. destruct (validateScenario s) eqn:Hv.
      * destruct (traditional_of_valid s Hv) as (r & Hr & _). congruence.
      * rewrite traditional_of_errors in H by (rewrite Hv; discriminate).
        unfold validationFailed in H. inversion H.
    + destruct (validateScenario s) eqn:Hv.
      * split; [reflexivity|]. split; [reflexivity|].
        destruct (validated_tech_fails_only_on_zero s Hb Hv)
          as [(r & Hr & _)|(_ & Hz)]; [congruence|exact Hz].
      * rewrite tech_of_errors in H by (rewrite Hv; discriminate).
        unfold validationFailed in H. inversion H.
  - intros (Hb & Hv & b & Hr). rewrite Hb.
    unfold calculateTechCompany, validateInputs. rewrite Hv, Hr. reflexivity.
Qed.

End HeuristicProperties.

(** * The further statements at concrete inputs *)

Lemma validateScenario_empty_iff_witness :
  @validateScenario sampleFormat techExample = []
  /\ @commonFieldsValid sampleFormat techExample
  /\ @validateRevenuePercentage sampleFormat
       (ofOption (revenuePercentage techExample)) = None
  /\ @validateCrossFieldConstraints sampleFormat techExample = [].
Proof.
  assert (Hv : @validateScenario sampleFormat techExample = [])
    by (vm_compute; reflexivity).
  destruct (proj1 (@validateScenario_empty_iff sampleFormat techExample) Hv)
    as (Hc & Hr & Hx).
  split; [exact Hv|]. split; [exact Hc|]. split; [exact (Hr eq_refl)|exact Hx].
Defined.

Lemma entry_points_return_iff_witness :
  @validateScenario sampleFormat techExample = []
  /\ truthyOpt (revenuePercentage techExample) = true
  /\ (exists r, @calculateTechCompany sampleFormat techExample = Return r)
  /\ (exists r, @calculateTraditionalBusiness sampleFormat techExample = Return r).
Proof.
  assert (Hv : @validateScenario sampleFormat techExample = [])
    by (vm_compute; reflexivity).
  split; [exact Hv|]. split; [reflexivity|]. split.
  - exact (proj2 (proj2 (@entry_points_return_iff sampleFormat techExample))
             (conj Hv eq_refl)).
  - exact (proj2 (proj1 (@entry_points_return_iff sampleFormat techExample))
             Hv).
Defined.

Lemma tech_result_extends_traditional_witness :
  exists r basic : CalculationResults,
    @calculateTechCompany sampleFormat techExample = Return r
    /\ @calculateTraditionalBusiness sampleFormat techExample = Return basic
    /\ totalDeveloperCost r = totalDeveloperCost basic
    /\ firstn 3 (calculationSteps r) = calculationSteps basic
    /\ List.length (calculationSteps r) = 6%nat.
Proof.
  eexists.
  assert (Hr : @calculateTechCompany sampleFormat techExample = Return _)
    by (vm_compute; reflexivity).
  destruct (@tech_result_extends_traditional sampleFormat techExample _ Hr)
    as (basic & Hb & _ & Ht & _ & _ & _ & _ & Hf & Hl & _).
  exists basic. split; [exact Hr|]. split; [exact Hb|].
  split; [exact Ht|]. split; [exact Hf|exact Hl].
Defined.

Lemma validated_tech_fails_only_on_zero_witness :
  businessType techZeroRevenue = tech
  /\ @validateScenario sampleFormat techZeroRevenue = []
  /\ ((exists r, @calculateTechCompany sampleFormat techZeroRevenue = Return r
                 /\ exists v, revenuePercentage techZeroRevenue = Some v
                              /\ Num.truthy v = true)
      \/ (@calculateTechCompany sampleFormat techZeroRevenue
          = Throw "Revenue percentage is required for tech company calculations"
          /\ exists b, revenuePercentage techZeroRevenue = Some (S754_zero b))).
Proof.
  assert (Hv : @validateScenario sampleFormat techZeroRevenue = [])
    by (vm_compute; reflexivity).
  split; [reflexivity|]. split; [exact Hv|].
  exact (@validated_tech_fails_only_on_zero sampleFormat techZeroRevenue
           eq_refl Hv).
Defined.

Lemma traditional_ignores_revenue_witness :
  businessType bankExample = traditional
  /\ @validateScenario sampleFormat
       (withRevenue bankExample (Some Num.NaN))
     = @validateScenario sampleFormat bankExample
  /\ @calculateTraditionalBusiness sampleFormat
       (withRevenue bankExample (Some Num.NaN))
     = @calculateTraditionalBusiness sampleFormat bankExample.
Proof.
  split; [reflexivity|].
  exact (@traditional_ignores_revenue sampleFormat bankExample
           (Some Num.NaN) eq_refl).
Defined.

Lemma validated_results_are_positive_witness :
  Num.wf (developerCount bankExample) = true
  /\ Num.wf (annualCostPerDeveloper bankExample) = true
  /\ Num.wf (ctsSwImprovementPercent bankExample) = true
  /\ Num.wf (solutionCost bankExample) = true
  /\ @validateScenario sampleFormat bankExample = []
  /\ exists r : CalculationResults,
       @calculateTraditionalBusiness sampleFormat bankExample = Return r
       /\ Num.gtb (totalDeveloperCost r) (Num.ofZ 0) = true
       /\ Num.gtb (costAvoidance r) (Num.ofZ 0) = true
       /\ Num.gtb (roiMultiple r) (Num.ofZ 0) = true
       /\ Num.isNaN (roiPercentage r) = false.
Proof.
  assert (Hv : @validateScenario sampleFormat bankExample = [])
    by (vm_compute; reflexivity).
  split; [reflexivity|]. split; [reflexivity|]. split; [reflexivity|].
  split; [reflexivity|]. split; [exact Hv|].
  exact (@validated_results_are_positive sampleFormat bankExample
           eq_refl eq_refl eq_refl eq_refl Hv).
Defined.

Lemma mergeErrors_last_wins_witness :
  Forall (fun o => NoDup (objectKeys o))
    [[("solutionCost", "first")];
     [("solutionCost", "second"); ("general", "third")]]
  /\ getKey "solutionCost"
       (mergeErrors [[("solutionCost", "first")];
                     [("solutionCost", "second"); ("general", "third")]])
     = Some "second".
Proof.
  assert (H : Forall (fun o => NoDup (objectKeys o))
                [[("solutionCost", "first")];
                 [("solutionCost", "second"); ("general", "third")]]).
  { repeat constructor; cbn; intuition discriminate. }
  split; [exact H|].
  rewrite (mergeErrors_last_wins "solutionCost" _ H). reflexivity.
Defined.

Lemma hook_validateField_updates_one_key_witness :
  NoDup (objectKeys [("solutionCost", "earlier message")])
  /\ getKey "developerCount"
       (@hookValidateField sampleFormat F_developerCount (JNum (Num.ofZ 0))
          [("solutionCost", "earlier message")])
     = @validateField sampleFormat F_developerCount (JNum (Num.ofZ 0)) None
  /\ getKey "solutionCost"
       (@hookValidateField sampleFormat F_developerCount (JNum (Num.ofZ 0))
          [("solutionCost", "earlier message")])
     = Some "earlier message".
Proof.
  assert (H : NoDup (objectKeys [("solutionCost", "earlier message")]))
    by (repeat constructor; cbn; intuition).
  destruct (@hook_validateField_updates_one_key sampleFormat F_developerCount
              (JNum (Num.ofZ 0)) _ H) as (H1 & H2 & _).
  split; [exact H|]. split; [exact H1|].
  rewrite (H2 "solutionCost") by discriminate. reflexivity.
Defined.

Lemma validity_signals_agree_witness :
  @validateScenario sampleFormat bankExample = []
  /\ snd (@hookValidateScenario sampleFormat bankExample) = true
  /\ hasErrors (Some (@validateScenario sampleFormat bankExample)) = false
  /\ @getSummaryMessage sampleFormat (@validateScenario sampleFormat bankExample)
     = "".
Proof.
  assert (Hv : @validateScenario sampleFormat bankExample = [])
    by (vm_compute; reflexivity).
  destruct (@validity_signals_agree sampleFormat bankExample)
    as (H1 & H2 & _ & H4 & _).
  split; [exact Hv|]. split; [exact (proj2 H1 Hv)|].
  split; [exact (proj2 H2 Hv)|exact (proj2 H4 Hv)].
Defined.

Lemma comparison_results_by_scenario_witness :
  @allResults sampleFormat [techExample]
    (Some [@placeholderResults bankExample])
  = [@placeholderResults bankExample]
  /\ map scenarioId
       (@allResults sampleFormat [techExample; invalidExample]
          (Some [@placeholderResults bankExample]))
     = [id techExample; id invalidExample]
  /\ map (fun r => List.length (calculationSteps r))
       (@allResults sampleFormat [techExample; invalidExample; bankExample]
          None)
     = [6; 0; 3]%nat.
Proof.
  split; [|split].
  - apply (proj1 (@comparison_results_by_scenario sampleFormat [techExample]
                    (Some [@placeholderResults bankExample]))
             [@placeholderResults bankExample]);
      reflexivity.
  - apply (proj2 (@comparison_results_by_scenario sampleFormat
                    [techExample; invalidExample]
                    (Some [@placeholderResults bankExample]))).
    intros supplied E. inversion E. cbn. discriminate.
  - vm_compute. reflexivity.
Defined.

Lemma deleteUpdater_lookup_witness :
  findScenario "b" [withId bankExample "a"; withId techExample "c"] = None
  /\ List.length
       (deleteUpdater "b" [withId bankExample "a"; withId techExample "c"])
     = List.length [withId bankExample "a"; withId techExample "c"].
Proof.
  assert (H : findScenario "b" [withId bankExample "a"; withId techExample "c"]
              = None) by reflexivity.
  split; [exact H|].
  exact (proj2 (proj1 (proj2 (deleteUpdater_lookup "b"
                                [withId bankExample "a";
                                 withId techExample "c"]))) H).
Defined.

Lemma delete_undoes_fresh_save_witness :
  findScenario (id (withId techExample "c")) [withId bankExample "a"] = None
  /\ deleteUpdater (id (withId techExample "c"))
       (saveUpdater (withId techExample "c") [withId bankExample "a"])
     = [withId bankExample "a"].
Proof.
  split; [reflexivity|].
  exact (delete_undoes_fresh_save (withId techExample "c")
           [withId bankExample "a"] eq_refl).
Defined.

Lemma dispatch_revenue_message_iff_witness :
  businessType techZeroRevenue = tech
  /\ @validateScenario sampleFormat techZeroRevenue = []
  /\ (exists b, revenuePercentage techZeroRevenue = Some (S754_zero b))
  /\ @calculateForBusinessType sampleFormat techZeroRevenue
     = Throw "Revenue percentage is required for tech company calculations".
Proof.
  assert (Hv : @validateScenario sampleFormat techZeroRevenue = [])
    by (vm_compute; reflexivity).
  assert (Hz : exists b, revenuePercentage techZeroRevenue = Some (S754_zero b))
    by (exists false; reflexivity).
  split; [reflexivity|]. split; [exact Hv|]. split; [exact Hz|].
  exact (proj2 (@dispatch_revenue_message_iff sampleFormat techZeroRevenue)
           (conj eq_refl (conj Hv Hz))).
Defined.
